(** * anything.py: generated-code cache, key derivation and registration surfaces

    A shallow embedding of [anything.py].  Python text is modelled by
    [string]; an [ascii] stands for the code point of the same number, so
    the strings covered are those whose code points lie below 256.  The
    interpreter ([exec]), the generation endpoint and the few built-ins
    whose behaviour depends on Unicode tables are taken as parameters of
    the sections that need them. *)

From Stdlib Require Import String Ascii List ZArith NArith Lia Bool.
From stdpp Require Import gmap strings list fin_maps.
Import ListNotations.

Local Open Scope string_scope.

(* Text is appended by computation throughout. *)
Arguments String.append !s1 s2.

(** ** Python text operations *)

Module PyStr.

Definition code (c : ascii) : N := N_of_ascii c.

(** [s.startswith(p)] *)
Fixpoint startswith (s p : string) {struct p} : bool :=
  match p, s with
  | EmptyString, _ => true
  | String a p', String b s' => Ascii.eqb a b && startswith s' p'
  | String _ _, EmptyString => false
  end.

(** [s[n:]] *)
Fixpoint drop (n : nat) (s : string) : string :=
  match n, s with
  | O, _ => s
  | S n', String _ s' => drop n' s'
  | S _, EmptyString => EmptyString
  end.

(** [s[a:-b]] for non-negative literals [a] and [b]: both ends are
    clipped, an empty range yields the empty string. *)
Definition slice (s : string) (a b : nat) : string :=
  String.substring a (String.length s - b - a) s.

(** [str.isspace] on one code point below 256. *)
Definition is_space (c : ascii) : bool :=
  let n := code c in
  ((9 <=? n) && (n <=? 13) || (28 <=? n) && (n <=? 32)
   || (n =? 133) || (n =? 160))%N.

Definition is_empty (s : string) : bool :=
  match s with EmptyString => true | String _ _ => false end.

Fixpoint lstrip (s : string) : string :=
  match s with
  | EmptyString => EmptyString
  | String c s' => if is_space c then lstrip s' else s
  end.

Fixpoint rstrip (s : string) : string :=
  match s with
  | EmptyString => EmptyString
  | String c s' =>
      let r := rstrip s' in
      if is_space c && is_empty r then EmptyString else String c r
  end.

(** [str.strip()] *)
Definition strip (s : string) : string := lstrip (rstrip s).

(** [sep.join(parts)] *)
Fixpoint join (sep : string) (parts : list string) : string :=
  match parts with
  | [] => ""
  | [p] => p
  | p :: rest => p ++ sep ++ join sep rest
  end.

End PyStr.

(** ** [_clean_code] *)

Definition _clean_code (content : string) : string :=
  let content :=
    if PyStr.startswith content "```python" then PyStr.slice content 9 3
    else if PyStr.startswith content "```" then PyStr.slice content 3 3
    else content in
  PyStr.strip content.

(** A reply whose body is wrapped in a code fence: the opening fence with
    its language tag on a line of its own, the body, the closing fence on
    a line of its own. *)
Definition LF : string := String (ascii_of_nat 10) "".

Definition fenced (tag body : string) : string :=
  "```" ++ tag ++ LF ++ body ++ LF ++ "```".


(** ** [repr] of text, lists of text and text-to-text dictionaries *)

Module PyRepr.

Definition hex_digit (n : N) : ascii :=
  match String.get (N.to_nat n) "0123456789abcdef" with
  | Some c => c
  | None => "0"%char
  end.

(** The two hexadecimal digits of [\xNN]. *)
Definition hex2 (n : N) : string :=
  String (hex_digit (n / 16)) (String (hex_digit (n mod 16)) "").

(** [str.isprintable] above the ASCII range, for code points below 256:
    the C1 controls, the no-break space and the soft hyphen are not
    printable. *)
Definition isprintable_high (n : N) : bool :=
  ((161 <=? n) && negb (n =? 173))%N.

Definition backslash : ascii := "\"%char.
Definition squote : ascii := "'"%char.
Definition dquote : ascii := ascii_of_nat 34.

(** One character of the body of [repr(s)], [quote] being the quote
    character [repr] has chosen: the cases of CPython's [unicode_repr],
    in its order. *)
Definition repr_char (quote c : ascii) : string :=
  let n := PyStr.code c in
  if Ascii.eqb c quote || Ascii.eqb c backslash then
    String backslash (String c "")
  else if (n =? 9)%N then String backslash "t"
  else if (n =? 10)%N then String backslash "n"
  else if (n =? 13)%N then String backslash "r"
  else if ((n <? 32) || (n =? 127))%N then
    String backslash (String "x" (hex2 n))
  else if (n <? 127)%N then String c ""
  else if isprintable_high n then String c ""
  else String backslash (String "x" (hex2 n)).

Fixpoint contains (c : ascii) (s : string) : bool :=
  match s with
  | EmptyString => false
  | String d s' => Ascii.eqb c d || contains c s'
  end.

(** Double quotes are used only when the text has a single quote and no
    double quote. *)
Definition choose_quote (s : string) : ascii :=
  if contains squote s && negb (contains dquote s) then dquote else squote.

Fixpoint repr_body (quote : ascii) (s : string) : string :=
  match s with
  | EmptyString => EmptyString
  | String c s' => repr_char quote c ++ repr_body quote s'
  end.

(** [repr(s)] for [s : str] *)
Definition repr_str (s : string) : string :=
  let q := choose_quote s in
  String q (repr_body q s ++ String q "").

(** [repr(l)] for a list of [str] *)
Definition repr_list (l : list string) : string :=
  "[" ++ PyStr.join ", " (map repr_str l) ++ "]".

Definition repr_item (kv : string * string) : string :=
  repr_str (fst kv) ++ ": " ++ repr_str (snd kv).

(** [repr(d)] for a dictionary from [str] to [str], given by its items
    in insertion order *)
Definition repr_dict (items : list (string * string)) : string :=
  "{" ++ PyStr.join ", " (map repr_item items) ++ "}".

(** What follows an item of a joined sequence closed by [close]: the
    closing character, or the separator and the items left. *)
Definition after_item {A : Type} (enc : A -> string) (close : ascii)
           (l : list A) (rest : string) : string :=
  match l with
  | [] => String close rest
  | _ => ", " ++ PyStr.join ", " (map enc l) ++ String close rest
  end.

(** *** Reading a [repr] back

    The inverse of [repr_str], on the front of a text: the text read and
    what follows its closing quote. *)

Definition unhex (c : ascii) : N :=
  let n := PyStr.code c in
  if (n <? 58)%N then (n - 48)%N else (n - 87)%N.

Definition cons_result (c : ascii) (r : option (string * string))
  : option (string * string) :=
  match r with
  | Some (b, rest) => Some (String c b, rest)
  | None => None
  end.

Definition unescape (d : ascii) : ascii :=
  if Ascii.eqb d "t" then ascii_of_N 9
  else if Ascii.eqb d "n" then ascii_of_N 10
  else if Ascii.eqb d "r" then ascii_of_N 13
  else d.

Fixpoint unrepr_body (quote : ascii) (s : string) : option (string * string) :=
  match s with
  | EmptyString => None
  | String c rest =>
      if Ascii.eqb c quote then Some (EmptyString, rest)
      else if negb (Ascii.eqb c backslash) then
        cons_result c (unrepr_body quote rest)
      else
        match rest with
        | EmptyString => None
        | String d rest1 =>
            if Ascii.eqb d "x" then
              match rest1 with
              | String h (String l rest2) =>
                  cons_result (ascii_of_N (16 * unhex h + unhex l))
                              (unrepr_body quote rest2)
              | _ => None
              end
            else cons_result (unescape d) (unrepr_body quote rest1)
        end
  end.

Definition unrepr_str (s : string) : option (string * string) :=
  match s with
  | EmptyString => None
  | String q rest =>
      if Ascii.eqb q squote || Ascii.eqb q dquote then unrepr_body q rest
      else None
  end.

End PyRepr.

(** ** [str.encode()] and [hashlib.sha256] *)

Module SHA256.

Local Open Scope Z_scope.
Local Open Scope list_scope.

(** UTF-8 encoding of text whose code points lie below 256. *)
Fixpoint encode (s : string) : list Z :=
  match s with
  | EmptyString => []
  | String c s' =>
      let n := Z.of_N (PyStr.code c) in
      if n <? 128 then n :: encode s'
      else (192 + n / 64) :: (128 + n mod 64) :: encode s'
  end.

Definition w32 (x : Z) : Z := x mod 2 ^ 32.
Definition add32 (x y : Z) : Z := w32 (x + y).
Definition rotr (n x : Z) : Z :=
  Z.lor (Z.shiftr x n) (w32 (Z.shiftl x (32 - n))).
Definition Ch (x y z : Z) : Z :=
  Z.lxor (Z.land x y) (Z.land (w32 (Z.lnot x)) z).
Definition Maj (x y z : Z) : Z :=
  Z.lxor (Z.lxor (Z.land x y) (Z.land x z)) (Z.land y z).
Definition Sigma0 (x : Z) : Z := Z.lxor (Z.lxor (rotr 2 x) (rotr 13 x)) (rotr 22 x).
Definition Sigma1 (x : Z) : Z := Z.lxor (Z.lxor (rotr 6 x) (rotr 11 x)) (rotr 25 x).
Definition sigma0 (x : Z) : Z := Z.lxor (Z.lxor (rotr 7 x) (rotr 18 x)) (Z.shiftr x 3).
Definition sigma1 (x : Z) : Z := Z.lxor (Z.lxor (rotr 17 x) (rotr 19 x)) (Z.shiftr x 10).

(** The round constants and the initial hash value are the first 32 bits
    of the fractional parts of the cube roots of the first 64 primes and
    of the square roots of the first 8. *)
Definition is_prime (n : nat) : bool :=
  forallb (fun d => negb (Nat.eqb (n mod d) 0)) (seq 2 (n - 2)).

Definition primes : list Z :=
  map Z.of_nat (List.filter is_prime (seq 2 310)).

(** The integer cube root of [n], one bit at a time below [2 ^ bits]. *)
Fixpoint cube_root (bits : nat) (n r : Z) : Z :=
  match bits with
  | O => r
  | S b =>
      let c := r + 2 ^ Z.of_nat b in
      cube_root b n (if c * c * c <=? n then c else r)
  end.

Definition K : list Z :=
  Eval vm_compute in
    map (fun p => w32 (cube_root 40 (p * 2 ^ 96) 0)) primes.

Definition H0 : list Z :=
  Eval vm_compute in
    map (fun p => w32 (Z.sqrt (p * 2 ^ 64))) (firstn 8 primes).

(** The [n] bytes of [x], most significant first. *)
Fixpoint be_bytes (n : nat) (x : Z) : list Z :=
  match n with
  | O => []
  | S n' => (x / 256 ^ Z.of_nat n') mod 256 :: be_bytes n' x
  end.

(** The message followed by the bit 1, zeros up to 56 modulo 64 bytes
    and the length in bits on 64 bits. *)
Definition pad (msg : list Z) : list Z :=
  let len := Z.of_nat (List.length msg) in
  let zeros := Z.to_nat ((55 - len) mod 64) in
  msg ++ 128 :: repeat 0 zeros ++ be_bytes 8 (8 * len).

Fixpoint be_words (fuel : nat) (bs : list Z) : list Z :=
  match fuel, bs with
  | S fuel', b0 :: b1 :: b2 :: b3 :: rest =>
      (((b0 * 256 + b1) * 256 + b2) * 256 + b3) :: be_words fuel' rest
  | _, _ => []
  end.

Definition word (ws : list Z) (i : nat) : Z := nth i ws 0.

(** The message schedule: sixteen words of the block, extended to 64. *)
Definition schedule (block : list Z) : list Z :=
  fold_left
    (fun ws t =>
       ws ++ [add32 (add32 (sigma1 (word ws (t - 2))) (word ws (t - 7)))
                    (add32 (sigma0 (word ws (t - 15))) (word ws (t - 16)))])
    (seq 16 48) block.

Definition round (ws : list Z) (st : list Z) (t : nat) : list Z :=
  match st with
  | [a; b; c; d; e; f; g; h] =>
      let t1 := add32 (add32 (add32 h (Sigma1 e)) (add32 (Ch e f g) (word K t)))
                      (word ws t) in
      let t2 := add32 (Sigma0 a) (Maj a b c) in
      [add32 t1 t2; a; b; c; add32 d t1; e; f; g]
  | _ => st
  end.

Definition compress (h : list Z) (block : list Z) : list Z :=
  let ws := schedule block in
  let st := fold_left (round ws) (seq 0 64) h in
  map (fun p => add32 (fst p) (snd p)) (combine h st).

Fixpoint blocks (fuel : nat) (ws : list Z) : list (list Z) :=
  match fuel, ws with
  | _, [] => []
  | O, _ => []
  | S fuel', _ => firstn 16 ws :: blocks fuel' (skipn 16 ws)
  end.

(** [hashlib.sha256(msg).digest()], as eight 32-bit words *)
Definition digest (msg : list Z) : list Z :=
  let bs := pad msg in
  let ws := be_words (List.length bs) bs in
  fold_left compress (blocks (List.length ws) ws) H0.

Definition hex_of_byte (b : Z) : string := PyRepr.hex2 (Z.to_N b).

Definition hex (bs : list Z) : string :=
  fold_right (fun b acc => hex_of_byte b ++ acc)%string EmptyString bs.

(** [hashlib.sha256(s.encode()).hexdigest()] *)
Definition hexdigest (s : string) : string :=
  hex (flat_map (be_bytes 4) (digest (encode s))).

End SHA256.

(** ** [pathlib] paths (POSIX flavour) *)

Module Pathlib.

(** A path is its root ([""], ["/"] or ["//"]) and its components. *)
Record Path : Type := mkPath { root : string; parts : list string }.

Global Instance Path_eq_dec : EqDecision Path.
Proof. solve_decision. Defined.

Global Instance Path_countable : Countable Path.
Proof.
  apply (inj_countable' (fun p => (root p, parts p))
                        (fun t => mkPath (fst t) (snd t))).
  intros []; reflexivity.
Defined.

Definition sep : ascii := "/"%char.

(** [s.split("/")] *)
Fixpoint split (s : string) : list string :=
  match s with
  | EmptyString => [EmptyString]
  | String c s' =>
      if Ascii.eqb c sep then EmptyString :: split s'
      else match split s' with
           | h :: t => String c h :: t
           | [] => [String c EmptyString]
           end
  end.

Definition is_component (x : string) : bool :=
  negb (String.eqb x "") && negb (String.eqb x ".").

(** The components of a relative text: empty ones and ["."] are dropped. *)
Definition components (rel : string) : list string :=
  List.filter is_component (split rel).

(** [posixpath.splitroot]: the root and the rest.  One leading slash,
    or three and more, give the root ["/"]; exactly two give ["//"]. *)
Definition splitroot (p : string) : string * string :=
  if negb (PyStr.startswith p "/") then ("", p)
  else if negb (PyStr.startswith (PyStr.drop 1 p) "/")
          || PyStr.startswith (PyStr.drop 2 p) "/"
       then ("/", PyStr.drop 1 p)
       else ("//", PyStr.drop 2 p).

(** [PurePosixPath(s)] *)
Definition parse (s : string) : Path :=
  mkPath (fst (splitroot s)) (components (snd (splitroot s))).

(** [p / key]: an absolute [key] replaces [p]. *)
Definition truediv (p : Path) (key : string) : Path :=
  if PyStr.startswith key "/" then parse key
  else mkPath (root p) (parts p ++ components key)%list.

End Pathlib.

Export Pathlib (Path, mkPath).

(** A text without path separator. *)
Definition no_sep (s : string) : Prop := PyRepr.contains Pathlib.sep s = false.

(** A suffix that starts with a character other than the separator and
    goes on without any. *)
Definition plain_suffix (b : string) : Prop :=
  exists u b', b = String u b' /\ Ascii.eqb "/" u = false /\ no_sep b' /\ b' <> "".

(** ** The Python runtime the generators run on *)

(** A class object: classes of different modules may share their
    [__name__]. *)
Record PyType : Type := mkType { tp_module : string; tp_name : string }.

Inductive Exn : Type :=
| TypeError
| KeyError (key : string)
| AttributeError
| Failure (what : string).

(** One request to the generation endpoint. *)
Record Request : Type :=
  mkRequest { rq_model : string; rq_system : string; rq_user : string }.

(** What the embedding takes from the interpreter and from the endpoint.
    [py_exec code ns] is [exec(code, ns)]: the namespace as the code left
    it, and the exception it raised, if any.  [py_call] is the application
    of a callable.  Both are assumed to act on the namespace they are
    given and on nothing else of the state below.  [endpoint] answers a
    request given the requests made before it. *)
Class Interp : Type := {
  Value : Type;
  py_type : Value -> PyType;
  py_bool : Value -> bool;
  py_str : Value -> string;
  py_repr : Value -> string;
  py_none : Value;
  str_upper : string -> string;
  py_exec : string -> gmap string Value -> gmap string Value * option Exn;
  py_call : Value -> list Value -> list (string * Value) ->
            gmap string Value -> gmap string Value * (Exn + Value);
  endpoint : list Request -> Request -> Exn + string;
  (* [None] is false *)
  py_bool_none : py_bool py_none = false
}.

(** ** State and exceptions *)

Definition M (S A : Type) : Type := S -> S * (Exn + A).

Definition ret {S A} (a : A) : M S A := fun s => (s, inr a).
Definition raise {S A} (e : Exn) : M S A := fun s => (s, inl e).
Definition bind {S A B} (m : M S A) (k : A -> M S B) : M S B :=
  fun s => match m s with
           | (s', inr a) => k a s'
           | (s', inl e) => (s', inl e)
           end.
Definition get {S} : M S S := fun s => (s, inr s).
Definition modify {S} (f : S -> S) : M S unit := fun s => (f s, inr tt).

(** Run a computation on a part of the state. *)
Definition zoom {S T A} (proj : T -> S) (upd : S -> T -> T) (m : M S A) : M T A :=
  fun t => match m (proj t) with (s', r) => (upd s' t, r) end.

Notation "'let*' x ':=' m 'in' k" := (bind m (fun x => k))
  (at level 10, x name, m at level 100, k at level 200).
Notation "m ';;' k" := (bind m (fun _ => k))
  (at level 100, k at level 200, right associativity).

(** [for x in l: body(x)] *)
Fixpoint for_each {S A} (l : list A) (body : A -> M S unit) : M S unit :=
  match l with
  | [] => ret tt
  | x :: rest => body x ;; for_each rest body
  end.

(** ** Insertion-ordered dictionaries *)

Module ODict.

Definition t (V : Type) : Type := list (string * V).

Fixpoint lookup {V} (k : string) (d : t V) : option V :=
  match d with
  | [] => None
  | (k', v) :: rest => if String.eqb k k' then Some v else lookup k rest
  end.

(** [d[k] = v]: an existing key keeps its place. *)
Fixpoint set {V} (k : string) (v : V) (d : t V) : t V :=
  match d with
  | [] => [(k, v)]
  | (k', v') :: rest =>
      if String.eqb k k' then (k, v) :: rest else (k', v') :: set k v rest
  end.

(** [del d[k]], when present *)
Fixpoint remove {V} (k : string) (d : t V) : t V :=
  match d with
  | [] => []
  | (k', v') :: rest =>
      if String.eqb k k' then rest else (k', v') :: remove k rest
  end.

Definition keys {V} (d : t V) : list string := map fst d.

Definition mem {V} (k : string) (d : t V) : bool :=
  match lookup k d with Some _ => true | None => false end.

End ODict.

(** ** The generators *)

Section Generators.

Context {interp : Interp}.

Definition Namespace : Type := gmap string Value.

(** A declared function: what [_get_function_signature] reads of it. *)
Record Func : Type := mkFunc {
  fn_name : string;                      (* __name__ *)
  fn_doc : option string;                (* __doc__, None when absent *)
  fn_annotations : ODict.t Value         (* __annotations__ *)
}.

(** What lies outside the generator objects: the cache files, the
    requests the endpoint has received, and the execution namespace
    ([self._env], shared with the caller). *)
Record World : Type := mkWorld {
  files : gmap Path string;
  calls : list Request;
  env : Namespace
}.

Definition set_files (f : gmap Path string -> gmap Path string) (w : World) : World :=
  mkWorld (f (files w)) (calls w) (env w).
Definition set_calls (f : list Request -> list Request) (w : World) : World :=
  mkWorld (files w) (f (calls w)) (env w).
Definition set_env (f : Namespace -> Namespace) (w : World) : World :=
  mkWorld (files w) (calls w) (f (env w)).

(** *** Module-level helpers *)

Definition repr_annotations (d : ODict.t Value) : string :=
  "{" ++ PyStr.join ", "
           (map (fun kv => PyRepr.repr_str (fst kv) ++ ": " ++ py_repr (snd kv)) d)
      ++ "}".

Definition _get_function_signature (func : Func) : string :=
  let annotations := ODict.remove "return" (fn_annotations func) in
  let return_type :=
    match ODict.lookup "return" (fn_annotations func) with
    | Some v => py_str v
    | None => "None"
    end in
  "Function: " ++ fn_name func
    ++ ", Doc: " ++ match fn_doc func with Some d => d | None => "None" end
    ++ ", Args: " ++ repr_annotations annotations
    ++ ", Return: " ++ return_type.

Definition type_name (v : Value) : string := tp_name (py_type v).

Definition arg_types (args : list Value) : list string := map type_name args.

Definition kwarg_types (kwargs : ODict.t Value) : ODict.t string :=
  map (fun kv => (fst kv, type_name (snd kv))) kwargs.

Definition _get_cache_key (func_name : string) (args : list Value)
           (kwargs : ODict.t Value) : string :=
  func_name ++ "_" ++ PyRepr.repr_list (arg_types args)
            ++ "_" ++ PyRepr.repr_dict (kwarg_types kwargs).

Definition _save_to_cache (cache_path : Path) (code : string) : M World unit :=
  modify (set_files (fun fs => <[cache_path := code]> fs)).

(** *** [BaseGenerator] *)

Record BaseGenerator : Type := mkBase { cache_dir : Path; model : string }.

(** Keyword arguments of the constructors. *)
Inductive Arg : Type :=
| ArgNone
| ArgStr (s : string)
| ArgPath (p : Path)
| ArgDict (ns : Namespace).

(** A call [f(k1=v1, ..., **kwargs)]: a keyword given twice is a
    [TypeError]. *)
Definition call_keywords (explicit kwargs : ODict.t Arg) : Exn + ODict.t Arg :=
  if existsb (fun k => ODict.mem k explicit) (ODict.keys kwargs)
  then inl TypeError
  else inr (explicit ++ kwargs)%list.

Definition init_parameters : list string := ["api_key"; "cache_dir"; "env"; "model"].

Definition default_cache_dir : Path := Pathlib.truediv (Pathlib.parse ".") ".anything".

(** [BaseGenerator.__init__(self, **keywords)].  The endpoint client and
    the directories of the file system are not part of the state:
    [mkdir(exist_ok=True)] leaves the files as they are. *)
Definition BaseGenerator_init (keywords : ODict.t Arg) : M World BaseGenerator :=
  if negb (forallb (fun k => existsb (String.eqb k) init_parameters)
                   (ODict.keys keywords))
  then raise TypeError
  else
    let* dir :=
      match ODict.lookup "cache_dir" keywords with
      | None => ret default_cache_dir
      | Some (ArgPath p) => ret p
      | Some _ => raise AttributeError      (* no [mkdir] on it *)
      end in
    let env0 : Namespace :=
      match ODict.lookup "env" keywords with
      | Some (ArgDict ns) => ns             (* [env or {}] *)
      | _ => ∅
      end in
    let model0 :=
      match ODict.lookup "model" keywords with
      | Some (ArgStr s) => s
      | _ => "gpt-4.1-nano"
      end in
    modify (set_env (fun _ => env0)) ;;
    ret (mkBase dir model0).

Definition _get_cache_path (self : BaseGenerator) (id_ cache_key : string) : Path :=
  let hash_key := SHA256.hexdigest cache_key in
  Pathlib.truediv (cache_dir self) (id_ ++ "_" ++ hash_key ++ ".py").

(** [exec(code, self._env)] *)
Definition exec_in_env (code : string) : M World unit :=
  fun w => match py_exec code (env w) with
           | (ns, None) => (set_env (fun _ => ns) w, inr tt)
           | (ns, Some e) => (set_env (fun _ => ns) w, inl e)
           end.

Definition _load_from_cache (self : BaseGenerator) (cache_path : Path)
           (func_name : string) : M World Value :=
  let* w := get in
  match files w !! cache_path with
  | Some code =>
      exec_in_env code ;;
      let* w' := get in
      ret (default py_none (env w' !! func_name))
  | None => ret py_none
  end.

(** One request to the endpoint, recorded whether it succeeds or not;
    the error is logged and raised again. *)
Definition _generate_code (self : BaseGenerator) (system_prompt user_prompt : string)
  : M World string :=
  let rq := mkRequest (model self) system_prompt user_prompt in
  let* w := get in
  modify (set_calls (fun cs => cs ++ [rq])%list) ;;
  match endpoint (calls w) rq with
  | inr content => ret (_clean_code content)
  | inl e => raise e
  end.

Definition _execute_code (self : BaseGenerator) (code func_name : string)
  : M World Value :=
  exec_in_env code ;;
  let* w := get in
  match env w !! func_name with
  | Some f => ret f
  | None => raise (KeyError func_name)
  end.

(** A generator object together with the world it runs in. *)
Record State (O : Type) : Type := mkState { world : World; self : O }.
Arguments mkState {O} _ _.
Arguments world {O} _.
Arguments self {O} _.

Definition on_world {O A} (m : M World A) : M (State O) A :=
  zoom world (fun w s => mkState w (self s)) m.

Definition on_self {O} (f : O -> O) : M (State O) unit :=
  modify (fun s => mkState (world s) (f (self s))).

(** The application of [f] to positional and keyword arguments. *)
Definition call_value (f : Value) (args : list Value) (kwargs : ODict.t Value)
  : M World Value :=
  fun w => match py_call f args kwargs (env w) with
           | (ns, r) => (set_env (fun _ => ns) w, r)
           end.

(** *** [Anything] *)

Definition Anything_system_prompt : string :=
  "Generate Python function code based on function signature and docstring. "
  ++ "Return only the function implementation without explanations or function calls.".

Definition Anything_init (kwargs : ODict.t Arg) : M World BaseGenerator :=
  BaseGenerator_init kwargs.

Definition Anything_call (self : BaseGenerator) (func : Func) (context : string)
  : M World Value :=
  let signature := _get_function_signature func in
  let cache_key := signature ++ context in
  let cache_path := _get_cache_path self (fn_name func) cache_key in
  let* cached_func := _load_from_cache self cache_path (fn_name func) in
  if py_bool cached_func then ret cached_func
  else
    let user_prompt :=
      if PyStr.is_empty context then signature
      else "Context of related functions:" ++ LF ++ context ++ LF ++ LF
           ++ "Generate code for:" ++ LF ++ signature in
    let* code := _generate_code self Anything_system_prompt user_prompt in
    let* func_impl := _execute_code self code (fn_name func) in
    _save_to_cache cache_path code ;;
    ret func_impl.

(** *** [LazyAnything] *)

Record LazyAnything : Type := mkLazy {
  generator : BaseGenerator;
  _registered_functions : gmap string Value;
  _pending_functions : ODict.t Func;
  _generated : bool
}.

Definition LazyAnything_init (kwargs : ODict.t Arg) : M World LazyAnything :=
  let* g := Anything_init kwargs in
  ret (mkLazy g ∅ [] false).

Definition _build_context (self : LazyAnything) : string :=
  PyStr.join LF (map (fun nf => _get_function_signature (snd nf))
                     (_pending_functions self)).

Definition _generate_all : M (State LazyAnything) unit :=
  let* s := get in
  if _generated (self s) then ret tt
  else
    let context := _build_context (self s) in
    for_each (_pending_functions (self s))
      (fun nf =>
         let* impl := on_world (Anything_call (generator (self s)) (snd nf) context) in
         on_self (fun o => mkLazy (generator o)
                                  (<[fst nf := impl]> (_registered_functions o))
                                  (_pending_functions o) (_generated o))) ;;
    on_self (fun o => mkLazy (generator o) (_registered_functions o)
                             (_pending_functions o) true).

(** The closure [register] returns for [func]. *)
Definition LazyAnything_wrapper (func : Func) (args : list Value)
           (kwargs : ODict.t Value) : M (State LazyAnything) Value :=
  let* s := get in
  (if negb (_generated (self s)) then _generate_all else ret tt) ;;
  let* s' := get in
  match _registered_functions (self s') !! fn_name func with
  | Some f => on_world (call_value f args kwargs)
  | None => raise (KeyError (fn_name func))
  end.

Definition register (func : Func)
  : M (State LazyAnything) (list Value -> ODict.t Value -> M (State LazyAnything) Value) :=
  on_self (fun o => mkLazy (generator o) (_registered_functions o)
                           (ODict.set (fn_name func) func (_pending_functions o))
                           (_generated o)) ;;
  ret (LazyAnything_wrapper func).

Definition generate_all : M (State LazyAnything) unit := _generate_all.
Definition finalize : M (State LazyAnything) unit := _generate_all.

(** *** [Everything] *)

Record Everything : Type := mkEverything {
  base : BaseGenerator;
  _functions : gmap string Value;
  _constants : gmap string Value;
  _context : list string
}.

Definition Everything_system_prompt : string :=
  "Generate Python function implementation based on function name and argument types. "
  ++ "Return only the function code without explanations.".

Definition Everything_constant_prompt : string :=
  "Generate a Python constant value based on the constant name. "
  ++ "Return only the value assignment without explanations. "
  ++ "Format: CONSTANT_NAME = value".

Definition default_everything_dir : Path :=
  Pathlib.truediv (Pathlib.parse ".") ".everything".

(** [super().__init__(cache_dir=kwargs.get('cache_dir', ...), **kwargs)] *)
Definition Everything_init (kwargs : ODict.t Arg) : M World Everything :=
  let dir := default (ArgPath default_everything_dir) (ODict.lookup "cache_dir" kwargs) in
  match call_keywords [("cache_dir", dir)] kwargs with
  | inl e => raise e
  | inr keywords =>
      let* b := BaseGenerator_init keywords in
      ret (mkEverything b ∅ ∅ [])
  end.

Definition _get_context_string (self : Everything) : string :=
  match _context self with
  | [] => ""
  | _ => "Previously generated context:" ++ LF
         ++ PyStr.join LF (_context self) ++ LF ++ LF
  end.

Definition _add_to_context (item_type name description : string)
  : M (State Everything) unit :=
  let context_entry := item_type ++ ": " ++ name ++ " - " ++ description in
  on_self (fun o =>
    if existsb (String.eqb context_entry) (_context o) then o
    else mkEverything (base o) (_functions o) (_constants o)
                      (_context o ++ [context_entry])%list).

Definition shape_description (args : list Value) (kwargs : ODict.t Value) : string :=
  "args: " ++ PyRepr.repr_list (arg_types args)
  ++ ", kwargs: " ++ PyRepr.repr_dict (kwarg_types kwargs).

Definition _generate_function (func_name : string) (args : list Value)
           (kwargs : ODict.t Value) : M (State Everything) Value :=
  let* s := get in
  let cache_key := _get_cache_key func_name args kwargs in
  let cache_path := _get_cache_path (base (self s)) func_name cache_key in
  let* cached_func := on_world (_load_from_cache (base (self s)) cache_path func_name) in
  if py_bool cached_func then
    _add_to_context "Function" func_name (shape_description args kwargs) ;;
    ret cached_func
  else
    let context_string := _get_context_string (self s) in
    let user_prompt :=
      context_string ++ "Function name: " ++ func_name
      ++ ", argument types: args: " ++ PyRepr.repr_list (arg_types args) in
    let user_prompt :=
      match kwarg_types kwargs with
      | [] => user_prompt
      | kt => user_prompt ++ ", kwargs: " ++ PyRepr.repr_dict kt
      end in
    let* code := on_world (_generate_code (base (self s)) Everything_system_prompt user_prompt) in
    let* func_impl := on_world (_execute_code (base (self s)) code func_name) in
    on_world (_save_to_cache cache_path code) ;;
    _add_to_context "Function" func_name (shape_description args kwargs) ;;
    ret func_impl.

(** [local_env.get(const_name, local_env.get(const_name.upper()))] *)
Definition constant_lookup (local_env : Namespace) (const_name : string) : Value :=
  default (default py_none (local_env !! str_upper const_name))
          (local_env !! const_name).

(** [exec(code, local_env)] on a fresh dictionary *)
Definition exec_fresh (code : string) : M (State Everything) Namespace :=
  match py_exec code ∅ with
  | (ns, None) => ret ns
  | (_, Some e) => raise e
  end.

Definition _generate_constant (const_name : string) : M (State Everything) Value :=
  let* s := get in
  let cache_key := "const_" ++ const_name in
  let cache_path := _get_cache_path (base (self s)) const_name cache_key in
  match files (world s) !! cache_path with
  | Some code =>
      let* local_env := exec_fresh code in
      let value := constant_lookup local_env const_name in
      _add_to_context "Constant" const_name ("value: " ++ py_str value) ;;
      ret value
  | None =>
      let context_string := _get_context_string (self s) in
      let user_prompt := context_string ++ "Constant name: " ++ const_name in
      let* code := on_world (_generate_code (base (self s)) Everything_constant_prompt user_prompt) in
      on_world (_save_to_cache cache_path code) ;;
      let* local_env := exec_fresh code in
      let value := constant_lookup local_env const_name in
      _add_to_context "Constant" const_name ("value: " ++ py_str value) ;;
      ret value
  end.

(** [__getattr__(func_name)]: the closure it returns. *)
Definition Everything_getattr (func_name : string) (args : list Value)
           (kwargs : ODict.t Value) : M (State Everything) Value :=
  let cache_key := _get_cache_key func_name args kwargs in
  let* s := get in
  match _functions (self s) !! cache_key with
  | Some _ => ret tt
  | None =>
      let* f := _generate_function func_name args kwargs in
      on_self (fun o => mkEverything (base o) (<[cache_key := f]> (_functions o))
                                     (_constants o) (_context o))
  end ;;
  let* s' := get in
  match _functions (self s') !! cache_key with
  | Some f => on_world (call_value f args kwargs)
  | None => raise (KeyError cache_key)
  end.

Definition Everything_getitem (const_name : string) : M (State Everything) Value :=
  let* s := get in
  match _constants (self s) !! const_name with
  | Some _ => ret tt
  | None =>
      let* v := _generate_constant const_name in
      on_self (fun o => mkEverything (base o) (_functions o)
                                     (<[const_name := v]> (_constants o)) (_context o))
  end ;;
  let* s' := get in
  match _constants (self s') !! const_name with
  | Some v => ret v
  | None => raise (KeyError const_name)
  end.

Definition get_context : M (State Everything) (list string) :=
  let* s := get in ret (_context (self s)).

Definition clear_context : M (State Everything) unit :=
  on_self (fun o => mkEverything (base o) (_functions o) (_constants o) []).

(** *** Call sequences on a [LazyAnything]

    What a caller can do with the object and the wrappers it was handed.
    A call that raises leaves the state it reached; the caller goes on
    from there. *)

Inductive LazyOp : Type :=
| OpRegister (func : Func)
| OpGenerateAll
| OpFinalize
| OpCall (func : Func) (args : list Value) (kwargs : ODict.t Value).

Definition lazy_step (s : State LazyAnything) (op : LazyOp) : State LazyAnything :=
  match op with
  | OpRegister func => fst (register func s)
  | OpGenerateAll => fst (generate_all s)
  | OpFinalize => fst (finalize s)
  | OpCall func args kwargs => fst (LazyAnything_wrapper func args kwargs s)
  end.

Definition lazy_run (ops : list LazyOp) (s : State LazyAnything) : State LazyAnything :=
  fold_left lazy_step ops s.

(** [s'] is generated and has the registered functions, the endpoint log
    and the cache files of [s]. *)
Record frozen (s s' : State LazyAnything) : Prop := mkFrozen {
  frozen_generated : _generated (self s') = true;
  frozen_registered : _registered_functions (self s') = _registered_functions (self s);
  frozen_calls : calls (world s') = calls (world s);
  frozen_files : files (world s') = files (world s)
}.

End Generators.

Arguments mkState {interp O} _ _.
Arguments world {interp O} _.
Arguments self {interp O} _.

(** ** A small interpreter

    Enough of a runtime to run the generators on concrete inputs: values
    are [None], integers, texts, functions and instances of named classes;
    [exec] understands [def NAME ...] and [NAME = WORD]; the endpoint
    answers from a fixed script. *)

Module Toy.

Inductive value : Type :=
| VNone
| VInt (n : Z)
| VStr (s : string)
| VFun (source : string)
| VObj (cls : PyType).

Definition type_of (v : value) : PyType :=
  match v with
  | VNone => mkType "builtins" "NoneType"
  | VInt _ => mkType "builtins" "int"
  | VStr _ => mkType "builtins" "str"
  | VFun _ => mkType "builtins" "function"
  | VObj cls => cls
  end.

Definition truth (v : value) : bool :=
  match v with
  | VNone => false
  | VInt n => negb (n =? 0)%Z
  | VStr s => negb (PyStr.is_empty s)
  | VFun _ | VObj _ => true
  end.

(** Decimal digits, least significant first into [acc]. *)
Fixpoint digits (fuel : nat) (n : N) (acc : string) : string :=
  match fuel with
  | O => acc
  | S fuel' =>
      let acc' := String (ascii_of_N (48 + n mod 10)) acc in
      if (n / 10 =? 0)%N then acc' else digits fuel' (n / 10) acc'
  end.

Definition int_str (n : Z) : string :=
  let m := Z.to_N (Z.abs n) in
  let d := digits (S (N.to_nat (N.log2 m))) m "" in
  if (n <? 0)%Z then String "-" d else d.

Definition to_str (v : value) : string :=
  match v with
  | VNone => "None"
  | VInt n => int_str n
  | VStr s => s
  | VFun _ => "<function>"
  | VObj cls => "<" ++ tp_module cls ++ "." ++ tp_name cls ++ " object>"
  end.

Definition to_repr (v : value) : string :=
  match v with
  | VStr s => PyRepr.repr_str s
  | _ => to_str v
  end.

Definition upper_char (c : ascii) : ascii :=
  let n := PyStr.code c in
  if ((97 <=? n) && (n <=? 122))%N then ascii_of_N (n - 32) else c.

Fixpoint upper (s : string) : string :=
  match s with
  | EmptyString => EmptyString
  | String c s' => String (upper_char c) (upper s')
  end.

Definition exec (code : string) (ns : gmap string value)
  : gmap string value * option Exn :=
  match String.words code with
  | "def" :: name :: _ => (<[name := VFun code]> ns, None)
  | name :: "=" :: word :: _ => (<[name := VStr word]> ns, None)
  | _ => (ns, Some (Failure "SyntaxError"))
  end.

Definition call (f : value) (args : list value) (kwargs : list (string * value))
           (ns : gmap string value) : gmap string value * (Exn + value) :=
  match f with
  | VFun _ => (ns, inr VNone)
  | _ => (ns, inl TypeError)
  end.

Definition scripted (script : list (Exn + string)) (history : list Request)
           (rq : Request) : Exn + string :=
  match nth_error script (List.length history) with
  | Some reply => reply
  | None => inl (Failure "no reply")
  end.

Definition interp (script : list (Exn + string)) : Interp :=
  {| Value := value;
     py_type := type_of;
     py_bool := truth;
     py_str := to_str;
     py_repr := to_repr;
     py_none := VNone;
     str_upper := upper;
     py_exec := exec;
     py_call := call;
     endpoint := scripted script;
     py_bool_none := eq_refl |}.

Definition empty_world (script : list (Exn + string)) : World (interp := interp script) :=
  mkWorld (interp := interp script) ∅ [] ∅.

Definition base0 : BaseGenerator := mkBase default_everything_dir "gpt-4.1-nano".

(** A fresh [Everything] in an empty world. *)
Definition everything0 (script : list (Exn + string))
  : State (interp := interp script) (Everything (interp := interp script)) :=
  mkState (empty_world script) (mkEverything (interp := interp script) base0 ∅ ∅ []).

(** A fresh [LazyAnything] in an empty world. *)
Definition lazy0 (script : list (Exn + string))
  : State (interp := interp script) (LazyAnything (interp := interp script)) :=
  mkState (empty_world script)
          (mkLazy (interp := interp script) (mkBase default_cache_dir "gpt-4.1-nano") ∅ [] false).

(** Three declarations with distinct signatures, and replies for them. *)
Definition three_replies : list (Exn + string) :=
  [ inr (fenced "python" "def max_ (a, b): return a if a > b else b");
    inr (fenced "" "def randint_generator (count, min_int, max_int): return []");
    inr "def main (): return None" ].

Definition declared_in (script : list (Exn + string)) (name doc : string)
           (annotations : list (string * string)) : Func (interp := interp script) :=
  mkFunc (interp := interp script) name (Some doc)
         (map (fun kv => (fst kv, VStr (snd kv))) annotations).

Definition declared : string -> string -> list (string * string) ->
                      Func (interp := interp three_replies) :=
  declared_in three_replies.

Definition f_max : Func (interp := interp three_replies) :=
  declared "max_" "Return max number" [("a", "int"); ("b", "int"); ("return", "int")].

Definition f_randint : Func (interp := interp three_replies) :=
  declared "randint_generator" "Return random numbers"
           [("count", "int"); ("min_int", "int"); ("max_int", "int"); ("return", "list[int]")].

Definition f_main : Func (interp := interp three_replies) :=
  declared "main" "Generate 10 random numbers and output their maximum"
           [("return", "None")].

(** Registered after the others were generated. *)
Definition f_late : Func (interp := interp three_replies) :=
  declared "calculator" "Return calculation" [("exp", "str"); ("return", "int")].

(** The three declarations registered, then the trigger fired once. *)
Definition lazy_generated
  : State (interp := interp three_replies) (LazyAnything (interp := interp three_replies)) :=
  lazy_run (interp := interp three_replies)
           [OpRegister (interp := interp three_replies) f_max;
            OpRegister (interp := interp three_replies) f_randint;
            OpRegister (interp := interp three_replies) f_main;
            OpGenerateAll (interp := interp three_replies)]
           (lazy0 three_replies).

End Toy.

(** ** Notions used in the further properties *)

(** Every character of [s] satisfies [p]. *)
Fixpoint all_chars (p : ascii -> bool) (s : string) : bool :=
  match s with
  | EmptyString => true
  | String c s' => p c && all_chars p s'
  end.

Definition is_lower_hex (c : ascii) : bool := PyRepr.contains c "0123456789abcdef".

(** How one operation may change the context: not at all, or by one new
    entry at the end. *)
Definition extends (ctx ctx' : list string) : Prop :=
  ctx' = ctx \/ exists e, ~ In e ctx /\ ctx' = (ctx ++ [e])%list.

Section Further.

Context {interp : Interp}.

(** The user prompt [Anything.__call__] builds for a signature and a
    context. *)
Definition Anything_prompt (signature context : string) : string :=
  if PyStr.is_empty context then signature
  else "Context of related functions:" ++ LF ++ context ++ LF ++ LF
       ++ "Generate code for:" ++ LF ++ signature.

(** The request [Anything.__call__] sends for [func] on a cache miss. *)
Definition Anything_request (self : BaseGenerator) (func : Func) (context : string)
  : Request :=
  mkRequest (model self) Anything_system_prompt
            (Anything_prompt (_get_function_signature func) context).

(** The cache path [Anything.__call__] uses for [func]. *)
Definition Anything_path (self : BaseGenerator) (func : Func) (context : string) : Path :=
  _get_cache_path self (fn_name func) (_get_function_signature func ++ context).

(** One turn of the loop of [_generate_all]. *)
Definition generate_one (g : BaseGenerator) (context : string) (nf : string * Func)
  : M (State LazyAnything) unit :=
  let* impl := on_world (Anything_call g (snd nf) context) in
  on_self (fun o => mkLazy (generator o)
                           (<[fst nf := impl]> (_registered_functions o))
                           (_pending_functions o) (_generated o)).

(** The entry [_generate_function] adds to the context. *)
Definition function_entry (func_name : string) (args : list Value)
           (kwargs : ODict.t Value) : string :=
  "Function" ++ ": " ++ func_name ++ " - " ++ shape_description args kwargs.

(** The cache path [_generate_function] uses. *)
Definition function_path (self : Everything) (func_name : string) (args : list Value)
           (kwargs : ODict.t Value) : Path :=
  _get_cache_path (base self) func_name (_get_cache_key func_name args kwargs).

(** The cache path [_generate_constant] uses. *)
Definition constant_path (self : Everything) (const_name : string) : Path :=
  _get_cache_path (base self) const_name ("const_" ++ const_name).

(** What the loop leaves, for any list of declarations. *)
Record loop_post (g : BaseGenerator) (context : string) (l : ODict.t Func)
       (s s' : State LazyAnything) (r : Exn + unit) : Prop := mkLoopPost {
  loop_generator : generator (self s') = generator (self s);
  loop_pending : _pending_functions (self s') = _pending_functions (self s);
  loop_generated : _generated (self s') = _generated (self s);
  loop_keeps : forall n, is_Some (_registered_functions (self s) !! n) ->
                         is_Some (_registered_functions (self s') !! n);
  loop_registers : r = inr tt ->
                   forall nf, In nf l ->
                              is_Some (_registered_functions (self s') !! fst nf);
  loop_requests : exists rs,
      calls (world s') = (calls (world s) ++ rs)%list
      /\ sublist rs (map (fun nf => Anything_request g (snd nf) context) l)
}.

End Further.

(** ** Further scenarios for the small interpreter *)

Module Scenario.

Definition area_source : string := "def area (r): return 3 * r * r".

Definition area_script : list (Exn + string) := [inr (fenced "python" area_source)].

Definition f_area : Func (interp := Toy.interp area_script) :=
  Toy.declared_in area_script "area" "Area of a circle" [("r", "float"); ("return", "float")].

(** The world after [area] was generated in an empty one. *)
Definition world_after_area : World (interp := Toy.interp area_script) :=
  fst (Anything_call (interp := Toy.interp area_script) Toy.base0 f_area ""
         (Toy.empty_world area_script)).

(** A world whose cache file for [area] holds a text that does not define
    [area]. *)
Definition stale_world : World (interp := Toy.interp area_script) :=
  mkWorld (interp := Toy.interp area_script)
          {[ Anything_path (interp := Toy.interp area_script) Toy.base0 f_area ""
             := "x = 1" ]}
          [] ∅.

(** The three declarations of [Toy] registered, the trigger not yet fired. *)
Definition lazy_pending
  : State (interp := Toy.interp Toy.three_replies)
          (LazyAnything (interp := Toy.interp Toy.three_replies)) :=
  lazy_run (interp := Toy.interp Toy.three_replies)
           [OpRegister (interp := Toy.interp Toy.three_replies) Toy.f_max;
            OpRegister (interp := Toy.interp Toy.three_replies) Toy.f_randint;
            OpRegister (interp := Toy.interp Toy.three_replies) Toy.f_main]
           (Toy.lazy0 Toy.three_replies).

Definition max_source : string := "def max_ (a, b): return a if a > b else b".

(** One declaration registered, with an endpoint whose reply is no source
    text. *)
Definition bad_script : list (Exn + string) := [inr "oops"].

Definition lazy_failing
  : State (interp := Toy.interp bad_script) (LazyAnything (interp := Toy.interp bad_script)) :=
  fst (register (interp := Toy.interp bad_script)
         (Toy.declared_in bad_script "area" "Area of a circle" [("r", "float")])
         (Toy.lazy0 bad_script)).

End Scenario.

Section FurtherRequests.

Context {interp : Interp}.

(** The request [_generate_constant] sends on a cache miss. *)
Definition constant_request (self : Everything) (const_name : string) : Request :=
  mkRequest (model (base self)) Everything_constant_prompt
            (_get_context_string self ++ "Constant name: " ++ const_name).

(** The request [_generate_function] sends on a cache miss. *)
Definition function_request (self : Everything) (func_name : string)
           (args : list Value) (kwargs : ODict.t Value) : Request :=
  let user_prompt :=
    _get_context_string self ++ "Function name: " ++ func_name
    ++ ", argument types: args: " ++ PyRepr.repr_list (arg_types args) in
  mkRequest (model (base self)) Everything_system_prompt
            match kwarg_types kwargs with
            | [] => user_prompt
            | kt => user_prompt ++ ", kwargs: " ++ PyRepr.repr_dict kt
            end.

End FurtherRequests.

(** ** Scenarios for [Everything] *)

Module Scenario2.

Definition add_source : string := "def add (a, b): return a + b".

Definition add_script : list (Exn + string) := [inr add_source].

(** The state after [add] was generated for two integers. *)
Definition after_add
  : State (interp := Toy.interp add_script) (Everything (interp := Toy.interp add_script)) :=
  fst (_generate_function (interp := Toy.interp add_script)
         "add" [Toy.VInt 1; Toy.VInt 2] [] (Toy.everything0 add_script)).

(** A new instance in the world [after_add] left. *)
Definition new_instance
  : State (interp := Toy.interp add_script) (Everything (interp := Toy.interp add_script)) :=
  mkState (interp := Toy.interp add_script) (world after_add)
          (mkEverything (interp := Toy.interp add_script) Toy.base0 ∅ ∅ []).

(** An endpoint whose answer for a constant cannot be executed. *)
Definition broken_script : list (Exn + string) := [inr "PI ="].

Definition pi_script : list (Exn + string) := [inr "PI = 3"].

(** The state after the constant [pi] was generated. *)
Definition after_pi
  : State (interp := Toy.interp pi_script) (Everything (interp := Toy.interp pi_script)) :=
  fst (_generate_constant (interp := Toy.interp pi_script) "pi" (Toy.everything0 pi_script)).

(** A new instance on the cache files [after_pi] left, in a world where
    nothing else happened. *)
Definition pi_reader
  : State (interp := Toy.interp pi_script) (Everything (interp := Toy.interp pi_script)) :=
  mkState (interp := Toy.interp pi_script)
          (mkWorld (interp := Toy.interp pi_script) (files (world after_pi)) [] ∅)
          (mkEverything (interp := Toy.interp pi_script) Toy.base0 ∅ ∅ []).

End Scenario2.

(** * Properties *)

(** ** Text lemmas *)

Lemma append_assoc (a b c : string) : (a ++ b) ++ c = a ++ b ++ c.
Proof. induction a as [|x a IH]; simpl; [reflexivity | now rewrite IH]. Qed.

Lemma append_empty_r (a : string) : a ++ "" = a.
Proof. induction a as [|x a IH]; simpl; [reflexivity | now rewrite IH]. Qed.

Lemma length_append (a b : string) :
  String.length (a ++ b) = String.length a + String.length b.
Proof. induction a as [|x a IH]; simpl; [reflexivity | now rewrite IH]. Qed.

Lemma append_inv_head (a b c : string) : a ++ b = a ++ c -> b = c.
Proof.
  induction a as [|x a IH]; simpl; intros H; [exact H | ].
  injection H as H. now apply IH.
Qed.

Lemma append_inv_tail (a b c : string) : a ++ c = b ++ c -> a = b.
Proof.
  revert b. induction a as [|x a IH]; intros [|y b] H; simpl in H.
  - reflexivity.
  - apply (f_equal String.length) in H. simpl in H. rewrite length_append in H. lia.
  - apply (f_equal String.length) in H. simpl in H. rewrite length_append in H. lia.
  - injection H as -> H. f_equal. now apply IH.
Qed.

Lemma substring_all (m q : string) :
  String.substring 0 (String.length m) (m ++ q) = m.
Proof.
  induction m as [|x m IH]; simpl.
  - now destruct q.
  - now rewrite IH.
Qed.

Lemma substring_middle (p m q : string) :
  String.substring (String.length p) (String.length m) (p ++ m ++ q) = m.
Proof.
  induction p as [|x p IH]; simpl; [apply substring_all | exact IH].
Qed.

Lemma slice_middle (p m q : string) :
  PyStr.slice (p ++ m ++ q) (String.length p) (String.length q) = m.
Proof.
  unfold PyStr.slice. rewrite !length_append.
  replace (String.length p + (String.length m + String.length q)
           - String.length q - String.length p) with (String.length m) by lia.
  apply substring_middle.
Qed.

(** ** Stripping *)

Lemma rstrip_append_space (s : string) (c : ascii) :
  PyStr.is_space c = true -> PyStr.rstrip (s ++ String c "") = PyStr.rstrip s.
Proof.
  intros Hc. induction s as [|x s IH]; simpl.
  - now rewrite Hc.
  - now rewrite IH.
Qed.

Lemma strip_cons_space (s : string) (c : ascii) :
  PyStr.is_space c = true -> PyStr.strip (String c s) = PyStr.strip s.
Proof.
  intros Hc. unfold PyStr.strip. simpl. rewrite Hc. simpl.
  destruct (PyStr.rstrip s) eqn:E; simpl; [reflexivity | now rewrite Hc].
Qed.

Lemma strip_between_newlines (body : string) :
  PyStr.strip (LF ++ body ++ LF) = PyStr.strip body.
Proof.
  unfold LF. simpl. rewrite strip_cons_space by reflexivity.
  unfold PyStr.strip. now rewrite rstrip_append_space by reflexivity.
Qed.

Lemma startswith_fence_python (s : string) :
  PyStr.startswith s "```python" = true -> PyStr.startswith s "```" = true.
Proof.
  destruct s as [|a [|b [|c s]]]; cbn [PyStr.startswith]; try discriminate.
  - destruct (Ascii.eqb _ a); cbn [andb]; discriminate.
  - destruct (Ascii.eqb _ a), (Ascii.eqb _ b); cbn [andb]; discriminate.
  - destruct (Ascii.eqb _ a), (Ascii.eqb _ b), (Ascii.eqb _ c); cbn [andb];
      try discriminate; reflexivity.
Qed.

Lemma clean_code_unfenced (body : string) :
  PyStr.startswith body "```" = false -> _clean_code body = PyStr.strip body.
Proof.
  intros H. unfold _clean_code. rewrite H.
  destruct (PyStr.startswith body "```python") eqn:E; [ | reflexivity].
  apply startswith_fence_python in E. congruence.
Qed.

Lemma clean_code_python_fence (body : string) :
  _clean_code (fenced "python" body) = PyStr.strip body.
Proof.
  unfold _clean_code, fenced.
  replace (PyStr.startswith _ "```python") with true by reflexivity.
  change ("```" ++ "python" ++ LF ++ body ++ LF ++ "```")
    with ("```python" ++ (LF ++ body ++ LF ++ "```")).
  replace (LF ++ body ++ LF ++ "```") with ((LF ++ body ++ LF) ++ "```")
    by now rewrite !append_assoc.
  rewrite (slice_middle "```python" (LF ++ body ++ LF) "```" : PyStr.slice _ 9 3 = _).
  apply strip_between_newlines.
Qed.

Lemma clean_code_bare_fence (body : string) :
  _clean_code (fenced "" body) = PyStr.strip body.
Proof.
  unfold _clean_code, fenced.
  replace (PyStr.startswith _ "```python") with false by reflexivity.
  replace (PyStr.startswith _ "```") with true by reflexivity.
  change ("```" ++ "" ++ LF ++ body ++ LF ++ "```")
    with ("```" ++ (LF ++ body ++ LF ++ "```")).
  replace (LF ++ body ++ LF ++ "```") with ((LF ++ body ++ LF) ++ "```")
    by now rewrite !append_assoc.
  rewrite (slice_middle "```" (LF ++ body ++ LF) "```" : PyStr.slice _ 3 3 = _).
  apply strip_between_newlines.
Qed.

(** C3, as stated, fails: with the language tag [py] the tag stays in the
    cleaned text. *)
Lemma clean_code_py_tag_kept :
  _clean_code (fenced "py" "x = 1") <> _clean_code "x = 1".
Proof. vm_compute. discriminate. Qed.

(** A body that itself starts with a fence is cut when it stands alone. *)
Lemma clean_code_body_with_fence :
  _clean_code (fenced "python" "```x```") = "```x```"
  /\ _clean_code "```x```" = "x".
Proof. split; reflexivity. Qed.

(** C3 (amended): a body that does not itself start with a fence, wrapped
    in a fence that is bare or tagged [python], cleans to the same text as
    the body alone, namely the stripped body. *)
Theorem clean_code_fenced_same (tag body : string) :
  tag = "python" \/ tag = "" ->
  PyStr.startswith body "```" = false ->
  _clean_code (fenced tag body) = _clean_code body
  /\ _clean_code body = PyStr.strip body.
Proof.
  intros Htag Hbody. rewrite (clean_code_unfenced body Hbody). split; [ | reflexivity].
  destruct Htag as [-> | ->];
    [apply clean_code_python_fence | apply clean_code_bare_fence].
Qed.

Lemma clean_code_fenced_same_witness :
  _clean_code (fenced "python" "def f(): return 1")
  = _clean_code "def f(): return 1"
  /\ _clean_code "def f(): return 1" = PyStr.strip "def f(): return 1".
Proof.
  apply (clean_code_fenced_same "python" "def f(): return 1");
    [left; reflexivity | reflexivity].
Defined.

(** ** Reading a [repr] back *)

Lemma code_bounded (c : ascii) : (PyStr.code c < 256)%N.
Proof. apply N_ascii_bounded. Qed.

Lemma code_inv (c : ascii) (n : N) : PyStr.code c = n -> c = ascii_of_N n.
Proof. intros <-. unfold PyStr.code. now rewrite ascii_N_embedding. Qed.

Lemma unhex_hex_digit (n : N) :
  (n < 16)%N -> PyRepr.unhex (PyRepr.hex_digit n) = n.
Proof.
  intros Hn. rewrite <- (N2Nat.id n) in *.
  assert (Hk : N.to_nat n < 16) by lia. clear Hn.
  generalize dependent (N.to_nat n). intros k Hk.
  do 16 (destruct k as [|k]; [reflexivity | ]). lia.
Qed.

Lemma hex2_roundtrip (n : N) (rest : string) :
  (n < 256)%N ->
  exists h l, PyRepr.hex2 n ++ rest = String h (String l rest)
              /\ (16 * PyRepr.unhex h + PyRepr.unhex l)%N = n.
Proof.
  intros Hn. unfold PyRepr.hex2. eexists _, _. split; [reflexivity | ].
  rewrite !unhex_hex_digit.
  - symmetry. apply N.div_mod. lia.
  - apply N.mod_lt. lia.
  - apply N.Div0.div_lt_upper_bound. lia.
Qed.

Lemma cons_result_unrepr_hex (q c : ascii) (rest : string) :
  q = PyRepr.squote \/ q = PyRepr.dquote ->
  PyRepr.unrepr_body q
    (String PyRepr.backslash (String "x" (PyRepr.hex2 (PyStr.code c))) ++ rest)
  = PyRepr.cons_result c (PyRepr.unrepr_body q rest).
Proof.
  intros Hq.
  destruct (hex2_roundtrip (PyStr.code c) rest (code_bounded c)) as (h & l & E & V).
  cbn [append]. rewrite E.
  assert (Hc : ascii_of_N (16 * PyRepr.unhex h + PyRepr.unhex l) = c).
  { rewrite V. apply ascii_N_embedding. }
  destruct Hq as [-> | ->]; cbn [PyRepr.unrepr_body]; now rewrite Hc.
Qed.

(** One escaped character is read back as itself. *)
Lemma unrepr_body_repr_char (q c : ascii) (rest : string) :
  q = PyRepr.squote \/ q = PyRepr.dquote ->
  PyRepr.unrepr_body q (PyRepr.repr_char q c ++ rest)
  = PyRepr.cons_result c (PyRepr.unrepr_body q rest).
Proof.
  intros Hq. unfold PyRepr.repr_char.
  destruct (Ascii.eqb c q || Ascii.eqb c PyRepr.backslash) eqn:E1.
  { apply orb_true_iff in E1 as [E | E]; apply Ascii.eqb_eq in E; subst c;
      destruct Hq as [-> | ->]; reflexivity. }
  apply orb_false_iff in E1 as [Eq Eb].
  destruct (PyStr.code c =? 9)%N eqn:E2.
  { apply N.eqb_eq, code_inv in E2. subst c. destruct Hq as [-> | ->]; reflexivity. }
  destruct (PyStr.code c =? 10)%N eqn:E3.
  { apply N.eqb_eq, code_inv in E3. subst c. destruct Hq as [-> | ->]; reflexivity. }
  destruct (PyStr.code c =? 13)%N eqn:E4.
  { apply N.eqb_eq, code_inv in E4. subst c. destruct Hq as [-> | ->]; reflexivity. }
  assert (Hlit : PyRepr.unrepr_body q (String c "" ++ rest)
                 = PyRepr.cons_result c (PyRepr.unrepr_body q rest)).
  { cbn [append PyRepr.unrepr_body]. now rewrite Eq, Eb. }
  destruct ((PyStr.code c <? 32) || (PyStr.code c =? 127))%N;
    [now apply cons_result_unrepr_hex | ].
  destruct (PyStr.code c <? 127)%N; [exact Hlit | ].
  destruct (PyRepr.isprintable_high (PyStr.code c));
    [exact Hlit | now apply cons_result_unrepr_hex].
Qed.

Lemma unrepr_body_repr_body (q : ascii) (s rest : string) :
  q = PyRepr.squote \/ q = PyRepr.dquote ->
  PyRepr.unrepr_body q (PyRepr.repr_body q s ++ String q rest) = Some (s, rest).
Proof.
  intros Hq. induction s as [|c s IH].
  - cbn [PyRepr.repr_body append PyRepr.unrepr_body]. now rewrite Ascii.eqb_refl.
  - cbn [PyRepr.repr_body]. rewrite append_assoc, unrepr_body_repr_char by exact Hq.
    now rewrite IH.
Qed.

Lemma choose_quote_cases (s : string) :
  PyRepr.choose_quote s = PyRepr.squote \/ PyRepr.choose_quote s = PyRepr.dquote.
Proof.
  unfold PyRepr.choose_quote.
  destruct (PyRepr.contains PyRepr.squote s && negb (PyRepr.contains PyRepr.dquote s));
    [right | left]; reflexivity.
Qed.

(** [repr] of a text, followed by anything, reads back as that text and
    what followed. *)
Lemma unrepr_str_repr_str (s rest : string) :
  PyRepr.unrepr_str (PyRepr.repr_str s ++ rest) = Some (s, rest).
Proof.
  unfold PyRepr.repr_str. cbn [append PyRepr.unrepr_str].
  rewrite append_assoc. cbn [append].
  destruct (choose_quote_cases s) as [E | E]; rewrite E;
    (replace (Ascii.eqb _ PyRepr.squote || Ascii.eqb _ PyRepr.dquote) with true
      by reflexivity);
    apply unrepr_body_repr_body; [left | right]; reflexivity.
Qed.

Lemma repr_str_prefix_inj (s1 s2 r1 r2 : string) :
  PyRepr.repr_str s1 ++ r1 = PyRepr.repr_str s2 ++ r2 -> s1 = s2 /\ r1 = r2.
Proof.
  intros H. apply (f_equal PyRepr.unrepr_str) in H.
  rewrite !unrepr_str_repr_str in H. now injection H.
Qed.

Lemma repr_str_head (s rest : string) :
  exists q tail, PyRepr.repr_str s ++ rest = String q tail
                 /\ (q = PyRepr.squote \/ q = PyRepr.dquote).
Proof.
  unfold PyRepr.repr_str. cbn [append]. eexists _, _. split; [reflexivity | ].
  apply choose_quote_cases.
Qed.

(** ** Joined sequences of self-delimiting encodings *)

Section Joined.

Variable A : Type.
Variable enc : A -> string.
Variable close : ascii.

Hypothesis enc_prefix_inj :
  forall a1 a2 r1 r2, enc a1 ++ r1 = enc a2 ++ r2 -> a1 = a2 /\ r1 = r2.
Hypothesis enc_head :
  forall a r, exists q tail,
    enc a ++ r = String q tail /\ (q = PyRepr.squote \/ q = PyRepr.dquote).
Hypothesis close_not_squote : close <> PyRepr.squote.
Hypothesis close_not_dquote : close <> PyRepr.dquote.
Hypothesis close_not_comma : close <> ","%char.

Lemma comma_head (x : string) : ", " ++ x = String "," (String " " x).
Proof. reflexivity. Qed.

Lemma join_cons_close (a : A) (l : list A) (rest : string) :
  PyStr.join ", " (map enc (a :: l)) ++ String close rest
  = enc a ++ PyRepr.after_item enc close l rest.
Proof.
  destruct l as [|b l]; cbn [map PyStr.join PyRepr.after_item]; [reflexivity | ].
  now rewrite !append_assoc.
Qed.

Lemma join_close_inj (l1 l2 : list A) (r1 r2 : string) :
  PyStr.join ", " (map enc l1) ++ String close r1
  = PyStr.join ", " (map enc l2) ++ String close r2 ->
  l1 = l2 /\ r1 = r2.
Proof.
  revert l2. induction l1 as [|a1 l1 IH]; intros [|a2 l2] H.
  - cbn in H. injection H as H. now split.
  - rewrite join_cons_close in H. cbn [map PyStr.join append] in H.
    destruct (enc_head a2 (PyRepr.after_item enc close l2 r2)) as (q & t & E & [Hq | Hq]);
      rewrite E in H; injection H as H _; congruence.
  - rewrite join_cons_close in H. cbn [map PyStr.join append] in H.
    destruct (enc_head a1 (PyRepr.after_item enc close l1 r1)) as (q & t & E & [Hq | Hq]);
      rewrite E in H; injection H as H _; congruence.
  - rewrite !join_cons_close in H.
    apply enc_prefix_inj in H as [-> H].
    destruct l1 as [|b1 l1], l2 as [|b2 l2]; cbn [PyRepr.after_item] in H.
    + injection H as H. now split.
    + rewrite comma_head in H. injection H as H _. congruence.
    + rewrite comma_head in H. injection H as H _. congruence.
    + apply append_inv_head in H.
      apply IH in H as [-> ->]. now split.
Qed.

End Joined.

Lemma repr_item_prefix_inj (kv1 kv2 : string * string) (r1 r2 : string) :
  PyRepr.repr_item kv1 ++ r1 = PyRepr.repr_item kv2 ++ r2 -> kv1 = kv2 /\ r1 = r2.
Proof.
  destruct kv1 as [k1 v1], kv2 as [k2 v2]. unfold PyRepr.repr_item. cbn [fst snd].
  rewrite !append_assoc. intros H.
  apply repr_str_prefix_inj in H as [-> H].
  apply append_inv_head in H.
  apply repr_str_prefix_inj in H as [-> ->]. now split.
Qed.

Lemma repr_item_head (kv : string * string) (rest : string) :
  exists q tail, PyRepr.repr_item kv ++ rest = String q tail
                 /\ (q = PyRepr.squote \/ q = PyRepr.dquote).
Proof.
  unfold PyRepr.repr_item. rewrite append_assoc. apply repr_str_head.
Qed.

(** [repr] of a list of texts is self-delimiting and injective. *)
Lemma repr_list_prefix_inj (l1 l2 : list string) (r1 r2 : string) :
  PyRepr.repr_list l1 ++ r1 = PyRepr.repr_list l2 ++ r2 -> l1 = l2 /\ r1 = r2.
Proof.
  unfold PyRepr.repr_list. rewrite !append_assoc. cbn [append]. intros H.
  injection H as H.
  apply (join_close_inj string PyRepr.repr_str "]"
           repr_str_prefix_inj repr_str_head) in H;
    [exact H | discriminate | discriminate | discriminate].
Qed.

(** [repr] of a dictionary of texts is injective on its items, in order. *)
Lemma repr_dict_prefix_inj (d1 d2 : list (string * string)) (r1 r2 : string) :
  PyRepr.repr_dict d1 ++ r1 = PyRepr.repr_dict d2 ++ r2 -> d1 = d2 /\ r1 = r2.
Proof.
  unfold PyRepr.repr_dict. rewrite !append_assoc. cbn [append]. intros H.
  injection H as H.
  apply (join_close_inj (string * string) PyRepr.repr_item "}"
           repr_item_prefix_inj repr_item_head) in H;
    [exact H | discriminate | discriminate | discriminate].
Qed.

(** ** Paths *)

Lemma contains_append (c : ascii) (a b : string) :
  PyRepr.contains c (a ++ b) = PyRepr.contains c a || PyRepr.contains c b.
Proof.
  induction a as [|x a IH]; cbn [append PyRepr.contains]; [reflexivity | ].
  now rewrite IH, orb_assoc.
Qed.

Lemma split_no_sep (b : string) : no_sep b -> Pathlib.split b = [b].
Proof.
  unfold no_sep. induction b as [|x b IH]; cbn [PyRepr.contains Pathlib.split];
    [reflexivity | ].
  intros H. apply orb_false_iff in H as [Hx Hb].
  rewrite Ascii.eqb_sym, Hx, (IH Hb). reflexivity.
Qed.

(** Appending a text without separator extends the last raw component. *)
Lemma split_append (a : string) :
  exists front final,
    forall b, no_sep b -> Pathlib.split (a ++ b) = (front ++ [(final ++ b)%string])%list.
Proof.
  induction a as [|x a (front & final & IH)].
  - exists [], "". intros b Hb. now apply split_no_sep.
  - destruct (Ascii.eqb x Pathlib.sep) eqn:Ex.
    + exists ("" :: front), final. intros b Hb.
      cbn [append Pathlib.split]. now rewrite Ex, (IH b Hb).
    + destruct front as [|h t].
      * exists [], (String x final). intros b Hb.
        cbn [append Pathlib.split]. now rewrite Ex, (IH b Hb).
      * exists (String x h :: t), final. intros b Hb.
        cbn [append Pathlib.split]. now rewrite Ex, (IH b Hb).
Qed.

Lemma is_component_long (s : string) :
  2 <= String.length s -> Pathlib.is_component s = true.
Proof.
  destruct s as [|x [|y s]]; cbn [String.length]; try lia. intros _.
  unfold Pathlib.is_component. cbn [String.eqb].
  now destruct (Ascii.eqb x ".").
Qed.

Lemma components_append (a : string) :
  exists front final,
    forall b, no_sep b -> 2 <= String.length b ->
              Pathlib.components (a ++ b) = (front ++ [(final ++ b)%string])%list.
Proof.
  destruct (split_append a) as (front & final & H).
  exists (List.filter Pathlib.is_component front), final. intros b Hb Hlen.
  unfold Pathlib.components. rewrite (H b Hb), List.filter_app. cbn [List.filter].
  rewrite is_component_long; [reflexivity | ].
  rewrite length_append. lia.
Qed.

Lemma plain_suffix_no_sep (b : string) : plain_suffix b -> no_sep b.
Proof.
  intros (u & b' & -> & Hu & Hb & _). unfold no_sep in *.
  cbn [PyRepr.contains]. unfold Pathlib.sep. now rewrite Hu.
Qed.

Lemma plain_suffix_length (b : string) : plain_suffix b -> 2 <= String.length b.
Proof.
  intros (u & b' & -> & _ & _ & Hne). destruct b'; [congruence | cbn; lia].
Qed.

(** The root of [name ++ b] and what follows it depend on [name] alone. *)
Lemma splitroot_append (name : string) :
  exists r rest,
    forall b, plain_suffix b -> Pathlib.splitroot (name ++ b) = (r, rest ++ b).
Proof.
  unfold Pathlib.splitroot.
  destruct name as [|c1 [|c2 [|c3 name]]].
  - exists "", "". intros b (u & b' & -> & Hu & _).
    cbn [append PyStr.startswith]. now rewrite Hu.
  - destruct (Ascii.eqb "/" c1) eqn:E1.
    + exists "/", "". intros b (u & b' & -> & Hu & _).
      cbn [append PyStr.startswith PyStr.drop]. now rewrite E1, Hu.
    + exists "", (String c1 ""). intros b _.
      cbn [append PyStr.startswith]. now rewrite E1.
  - destruct (Ascii.eqb "/" c1) eqn:E1; [destruct (Ascii.eqb "/" c2) eqn:E2 | ].
    + exists "//", "". intros b (u & b' & -> & Hu & _).
      cbn [append PyStr.startswith PyStr.drop]. now rewrite E1, E2, Hu.
    + exists "/", (String c2 ""). intros b _.
      cbn [append PyStr.startswith PyStr.drop]. now rewrite E1, E2.
    + exists "", (String c1 (String c2 "")). intros b _.
      cbn [append PyStr.startswith]. now rewrite E1.
  - destruct (Ascii.eqb "/" c1) eqn:E1;
      [destruct (Ascii.eqb "/" c2) eqn:E2; [destruct (Ascii.eqb "/" c3) eqn:E3 | ] | ].
    + exists "/", (String c2 (String c3 name)). intros b _.
      cbn [append PyStr.startswith PyStr.drop]. now rewrite E1, E2, E3.
    + exists "//", (String c3 name). intros b _.
      cbn [append PyStr.startswith PyStr.drop]. now rewrite E1, E2, E3.
    + exists "/", (String c2 (String c3 name)). intros b _.
      cbn [append PyStr.startswith PyStr.drop]. now rewrite E1, E2.
    + exists "", (String c1 (String c2 (String c3 name))). intros b _.
      cbn [append PyStr.startswith]. now rewrite E1.
Qed.

Lemma startswith_sep_append (name : string) :
  exists absolute,
    forall b, plain_suffix b -> PyStr.startswith (name ++ b) "/" = absolute.
Proof.
  destruct name as [|c name].
  - exists false. intros b (u & b' & -> & Hu & _).
    cbn [append PyStr.startswith]. now rewrite Hu.
  - exists (Ascii.eqb "/" c). intros b _.
    cbn [append PyStr.startswith]. now rewrite andb_true_r.
Qed.

(** Joining [name ++ b] to a directory: the last component ends in [b]. *)
Lemma truediv_append (dir : Path) (name : string) :
  exists r front final,
    forall b, plain_suffix b ->
              Pathlib.truediv dir (name ++ b) = mkPath r (front ++ [(final ++ b)%string])%list.
Proof.
  destruct (startswith_sep_append name) as (absolute & Habs).
  destruct absolute.
  - destruct (splitroot_append name) as (r & rest & Hroot).
    destruct (components_append rest) as (front & final & Hc).
    exists r, front, final. intros b Hb.
    unfold Pathlib.truediv, Pathlib.parse. rewrite (Habs b Hb), (Hroot b Hb).
    cbn [fst snd]. f_equal.
    apply Hc; [now apply plain_suffix_no_sep | now apply plain_suffix_length].
  - destruct (components_append name) as (front & final & Hc).
    exists (Pathlib.root dir), (Pathlib.parts dir ++ front)%list, final. intros b Hb.
    unfold Pathlib.truediv. rewrite (Habs b Hb). f_equal.
    rewrite <- app_assoc. f_equal.
    apply Hc; [now apply plain_suffix_no_sep | now apply plain_suffix_length].
Qed.

Lemma truediv_suffix_inj (dir : Path) (name b1 b2 : string) :
  plain_suffix b1 -> plain_suffix b2 ->
  Pathlib.truediv dir (name ++ b1) = Pathlib.truediv dir (name ++ b2) -> b1 = b2.
Proof.
  intros H1 H2 H.
  destruct (truediv_append dir name) as (r & front & final & Hd).
  rewrite (Hd b1 H1), (Hd b2 H2) in H. injection H as H.
  apply app_inj_tail in H as [_ H]. now apply append_inv_head in H.
Qed.

(** *** Digests have no separator *)

Lemma hex_digit_not_sep (n : N) : Ascii.eqb "/" (PyRepr.hex_digit n) = false.
Proof.
  unfold PyRepr.hex_digit.
  generalize (N.to_nat n). intros k.
  do 16 (destruct k as [|k]; [reflexivity | ]). reflexivity.
Qed.

Lemma hex_no_sep (bs : list Z) : no_sep (SHA256.hex bs).
Proof.
  unfold no_sep, Pathlib.sep. induction bs as [|b bs IH]; [reflexivity | ].
  cbn [SHA256.hex fold_right]. fold (SHA256.hex bs).
  unfold SHA256.hex_of_byte, PyRepr.hex2. cbn [append PyRepr.contains].
  now rewrite !hex_digit_not_sep, IH.
Qed.

Lemma hexdigest_no_sep (s : string) : no_sep (SHA256.hexdigest s).
Proof. apply hex_no_sep. Qed.

Lemma cache_file_suffix (h : string) : no_sep h -> plain_suffix ("_" ++ h ++ ".py").
Proof.
  intros Hh. exists "_"%char, (h ++ ".py"). repeat split.
  - unfold no_sep. rewrite contains_append, Hh. reflexivity.
  - destruct h; discriminate.
Qed.

(** ** The key deriver *)

Section KeyDeriver.

Context {interp : Interp}.

(** The key determines the type names of the call, in order. *)
Lemma cache_key_inj (func_name : string) (args1 args2 : list Value)
      (kwargs1 kwargs2 : ODict.t Value) :
  _get_cache_key func_name args1 kwargs1 = _get_cache_key func_name args2 kwargs2 ->
  arg_types args1 = arg_types args2 /\ kwarg_types kwargs1 = kwarg_types kwargs2.
Proof.
  unfold _get_cache_key. intros H.
  do 2 apply append_inv_head in H.
  apply repr_list_prefix_inj in H as [Ha H]. split; [exact Ha | ].
  apply append_inv_head in H.
  rewrite <- (append_empty_r (PyRepr.repr_dict (kwarg_types kwargs1))) in H.
  rewrite <- (append_empty_r (PyRepr.repr_dict (kwarg_types kwargs2))) in H.
  now apply repr_dict_prefix_inj in H as [Hd _].
Qed.

Lemma arg_types_of_types (args1 args2 : list Value) :
  map py_type args1 = map py_type args2 -> arg_types args1 = arg_types args2.
Proof.
  intros H. unfold arg_types, type_name.
  rewrite <- !(List.map_map py_type tp_name). now rewrite H.
Qed.

Lemma kwarg_types_of_types (kwargs1 kwargs2 : ODict.t Value) :
  map (fun kv => (fst kv, py_type (snd kv))) kwargs1
  = map (fun kv => (fst kv, py_type (snd kv))) kwargs2 ->
  kwarg_types kwargs1 = kwarg_types kwargs2.
Proof.
  intros H.
  assert (E : forall kw : ODict.t Value,
             kwarg_types kw
             = map (fun kt => (fst kt, tp_name (snd kt)))
                   (map (fun kv => (fst kv, py_type (snd kv))) kw)).
  { intros kw. now rewrite List.map_map. }
  now rewrite !E, H.
Qed.

Lemma cache_path_digest_inj (self : BaseGenerator) (id_ key1 key2 : string) :
  _get_cache_path self id_ key1 = _get_cache_path self id_ key2 ->
  SHA256.hexdigest key1 = SHA256.hexdigest key2.
Proof.
  unfold _get_cache_path. intros H.
  apply truediv_suffix_inj in H;
    try (apply cache_file_suffix, hexdigest_no_sep).
  apply append_inv_head in H. now apply append_inv_tail in H.
Qed.

(** C1 (amended): two calls with the same function name whose lists of
    positional type names differ, or whose keyword names and type names
    differ (in passing order), have different cache keys; their cache
    paths differ as well whenever the SHA-256 digests of the two keys
    differ. *)
Theorem cache_key_differs_on_type_names
        (self : BaseGenerator) (func_name : string)
        (args1 args2 : list Value) (kwargs1 kwargs2 : ODict.t Value) :
  arg_types args1 <> arg_types args2
  \/ kwarg_types kwargs1 <> kwarg_types kwargs2 ->
  _get_cache_key func_name args1 kwargs1 <> _get_cache_key func_name args2 kwargs2
  /\ (SHA256.hexdigest (_get_cache_key func_name args1 kwargs1)
      <> SHA256.hexdigest (_get_cache_key func_name args2 kwargs2) ->
      _get_cache_path self func_name (_get_cache_key func_name args1 kwargs1)
      <> _get_cache_path self func_name (_get_cache_key func_name args2 kwargs2)).
Proof.
  intros Hdiff. split.
  - intros Hkey. apply cache_key_inj in Hkey as [Ha Hk].
    destruct Hdiff as [Hd | Hd]; contradiction.
  - intros Hdigest Hpath. apply Hdigest.
    now apply cache_path_digest_inj in Hpath.
Qed.

(** C2 (amended): two calls with the same function name, the same types
    position by position, and the same keyword names with the same types
    passed in the same order, derive the same cache key and the same
    cache path, whatever the values. *)
Theorem cache_key_value_insensitive
        (self : BaseGenerator) (func_name : string)
        (args1 args2 : list Value) (kwargs1 kwargs2 : ODict.t Value) :
  map py_type args1 = map py_type args2 ->
  map (fun kv => (fst kv, py_type (snd kv))) kwargs1
  = map (fun kv => (fst kv, py_type (snd kv))) kwargs2 ->
  _get_cache_key func_name args1 kwargs1 = _get_cache_key func_name args2 kwargs2
  /\ _get_cache_path self func_name (_get_cache_key func_name args1 kwargs1)
     = _get_cache_path self func_name (_get_cache_key func_name args2 kwargs2).
Proof.
  intros Ha Hk.
  assert (E : _get_cache_key func_name args1 kwargs1
              = _get_cache_key func_name args2 kwargs2).
  { unfold _get_cache_key.
    now rewrite (arg_types_of_types _ _ Ha), (kwarg_types_of_types _ _ Hk). }
  split; [exact E | now rewrite E].
Qed.

End KeyDeriver.

(** C1, as stated, fails: two classes of different modules with the same
    name are different types and yield the same key and the same path. *)
Lemma cache_key_same_class_name :
  map (py_type (Interp := Toy.interp []))
      [Toy.VObj (mkType "shapes" "Point")]
  <> map (py_type (Interp := Toy.interp []))
         [Toy.VObj (mkType "geo" "Point")]
  /\ _get_cache_key (interp := Toy.interp []) "area"
       [Toy.VObj (mkType "shapes" "Point")] []
     = _get_cache_key (interp := Toy.interp []) "area"
         [Toy.VObj (mkType "geo" "Point")] []
  /\ _get_cache_path (mkBase default_everything_dir "m") "area"
       (_get_cache_key (interp := Toy.interp []) "area"
          [Toy.VObj (mkType "shapes" "Point")] [])
     = _get_cache_path (mkBase default_everything_dir "m") "area"
         (_get_cache_key (interp := Toy.interp []) "area"
            [Toy.VObj (mkType "geo" "Point")] []).
Proof. split; [discriminate | split; reflexivity]. Qed.

Lemma cache_key_differs_on_type_names_witness :
  _get_cache_key (interp := Toy.interp []) "f" [Toy.VInt 1] []
  <> _get_cache_key (interp := Toy.interp []) "f" [Toy.VStr "a"] []
  /\ _get_cache_path (mkBase default_everything_dir "m") "f"
       (_get_cache_key (interp := Toy.interp []) "f" [Toy.VInt 1] [])
     <> _get_cache_path (mkBase default_everything_dir "m") "f"
          (_get_cache_key (interp := Toy.interp []) "f" [Toy.VStr "a"] []).
Proof.
  destruct (cache_key_differs_on_type_names (interp := Toy.interp [])
              (mkBase default_everything_dir "m") "f"
              [Toy.VInt 1] [Toy.VStr "a"] [] [])
    as [Hkey Hpath]; [left; vm_compute; discriminate | ].
  split; [exact Hkey | apply Hpath; vm_compute; discriminate].
Defined.

(** C2, as stated, fails: the same keywords with the same types, passed in
    another order, derive another key. *)
Lemma cache_key_keyword_order :
  (forall k : string,
      option_map (py_type (Interp := Toy.interp []))
                 (ODict.lookup k [("a", Toy.VInt 1); ("b", Toy.VStr "x")])
      = option_map (py_type (Interp := Toy.interp []))
                   (ODict.lookup k [("b", Toy.VStr "y"); ("a", Toy.VInt 2)]))
  /\ _get_cache_key (interp := Toy.interp []) "f" []
       [("a", Toy.VInt 1); ("b", Toy.VStr "x")]
     <> _get_cache_key (interp := Toy.interp []) "f" []
          [("b", Toy.VStr "y"); ("a", Toy.VInt 2)].
Proof.
  split; [ | vm_compute; discriminate].
  intros k. cbn [ODict.lookup].
  destruct (String.eqb_spec k "a") as [-> | Ha]; [reflexivity | ].
  destruct (String.eqb_spec k "b") as [-> | Hb]; reflexivity.
Qed.

Lemma cache_key_value_insensitive_witness :
  _get_cache_key (interp := Toy.interp []) "f"
    [Toy.VInt 1; Toy.VStr "a"] [("n", Toy.VInt 3)]
  = _get_cache_key (interp := Toy.interp []) "f"
      [Toy.VInt 2; Toy.VStr "b"] [("n", Toy.VInt 4)]
  /\ _get_cache_path (mkBase default_everything_dir "m") "f"
       (_get_cache_key (interp := Toy.interp []) "f"
          [Toy.VInt 1; Toy.VStr "a"] [("n", Toy.VInt 3)])
     = _get_cache_path (mkBase default_everything_dir "m") "f"
         (_get_cache_key (interp := Toy.interp []) "f"
            [Toy.VInt 2; Toy.VStr "b"] [("n", Toy.VInt 4)]).
Proof.
  apply (cache_key_value_insensitive (interp := Toy.interp [])); reflexivity.
Defined.

(** ** Running computations *)

Section Monad.

Context {S A B : Type}.

Lemma bind_ok (m : M S A) (k : A -> M S B) (s s1 : S) (a : A) :
  m s = (s1, inr a) -> bind m k s = k a s1.
Proof. intros H. unfold bind. now rewrite H. Qed.

End Monad.

(** A run is its final state and its outcome. *)
Lemma pair_of_snd {A B : Type} (x : A * B) (b : B) : snd x = b -> x = (fst x, b).
Proof. intros <-. now destruct x. Defined.

(** Run a computation: unfold the plumbing, keep the text and the maps
    folded. *)
Ltac run :=
  cbv [bind get ret raise modify zoom on_world on_self
       _generate_code _save_to_cache exec_fresh exec_in_env _execute_code
       _load_from_cache _add_to_context call_value];
  cbn [world self files calls env set_files set_calls set_env fst snd
       generator _registered_functions _pending_functions _generated
       base _functions _constants _context].

(** ** Clearing the context *)

Section Context.

Context {interp : Interp}.

(** C9: after [clear_context] the context list is empty, whatever it
    held, and clearing once more leaves the state as it is. *)
Theorem clear_context_idempotent (s : State Everything) :
  snd (clear_context s) = inr tt
  /\ _context (self (fst (clear_context s))) = []
  /\ get_context (fst (clear_context s)) = (fst (clear_context s), inr [])
  /\ clear_context (fst (clear_context s)) = clear_context s.
Proof. repeat split. Qed.

Lemma clear_context_after_add (s : State Everything)
      (item_type name description : string) :
  _context (self (fst (clear_context
                         (fst (_add_to_context item_type name description s))))) = [].
Proof. reflexivity. Qed.

(** ** The constant lookup *)

Lemma constant_lookup_present (local_env : Namespace) (const_name : string) (v : Value) :
  local_env !! const_name = Some v -> constant_lookup local_env const_name = v.
Proof. intros H. unfold constant_lookup. now rewrite H. Qed.

Lemma constant_lookup_absent (local_env : Namespace) (const_name : string) :
  local_env !! const_name = None ->
  constant_lookup local_env const_name
  = default py_none (local_env !! str_upper const_name).
Proof. intros H. unfold constant_lookup. now rewrite H. Qed.

Lemma generate_constant_cached (s : State Everything) (const_name code : string)
      (local_env : Namespace) :
  files (world s) !! _get_cache_path (base (self s)) const_name ("const_" ++ const_name)
  = Some code ->
  py_exec code ∅ = (local_env, None) ->
  exists s', _generate_constant const_name s
             = (s', inr (constant_lookup local_env const_name))
             /\ calls (world s') = calls (world s).
Proof.
  intros Hfile Hexec. unfold _generate_constant. run.
  rewrite Hfile. run. rewrite Hexec.
  eexists. split; reflexivity.
Qed.

Lemma generate_constant_fresh (s : State Everything) (const_name content : string)
      (local_env : Namespace) :
  files (world s) !! _get_cache_path (base (self s)) const_name ("const_" ++ const_name)
  = None ->
  endpoint (calls (world s))
           (mkRequest (model (base (self s))) Everything_constant_prompt
                      (_get_context_string (self s) ++ "Constant name: " ++ const_name))
  = inr content ->
  py_exec (_clean_code content) ∅ = (local_env, None) ->
  exists s', _generate_constant const_name s
             = (s', inr (constant_lookup local_env const_name)).
Proof.
  intros Hfile Hreply Hexec. unfold _generate_constant. run.
  rewrite Hfile. run. rewrite Hreply, Hexec.
  eexists. reflexivity.
Qed.

(** C8: whenever [_generate_constant] returns, it has executed a source
    text in a fresh namespace and returns the binding of the declared
    name when that name is bound there, and otherwise the binding of the
    upper-cased name ([None] when neither is bound). *)
Theorem generate_constant_lookup (s s' : State Everything) (const_name : string)
        (value : Value) :
  _generate_constant const_name s = (s', inr value) ->
  exists code local_env,
    py_exec code ∅ = (local_env, None)
    /\ (forall v, local_env !! const_name = Some v -> value = v)
    /\ (local_env !! const_name = None ->
        value = default py_none (local_env !! str_upper const_name)).
Proof.
  unfold _generate_constant. run.
  destruct (files (world s) !! _) as [code | ] eqn:Hfile; run.
  - destruct (py_exec code ∅) as [ns [e | ]] eqn:Hexec; intros H;
      [discriminate | ].
    injection H as _ <-. exists code, ns. split; [exact Hexec | ].
    split; [apply constant_lookup_present | apply constant_lookup_absent].
  - destruct (endpoint _ _) as [e | content]; [discriminate | ].
    destruct (py_exec (_clean_code content) ∅) as [ns [e | ]] eqn:Hexec;
      intros H; [discriminate | ].
    injection H as _ <-. exists (_clean_code content), ns. split; [exact Hexec | ].
    split; [apply constant_lookup_present | apply constant_lookup_absent].
Qed.

End Context.

Lemma generate_constant_lookup_witness :
  exists code local_env,
    py_exec (Interp := Toy.interp [inr "PI = 3"]) code ∅ = (local_env, None)
    /\ (forall v, local_env !! "pi" = Some v -> Toy.VStr "3" = v)
    /\ (local_env !! "pi" = None ->
        Toy.VStr "3" = default Toy.VNone (local_env !! Toy.upper "pi")).
Proof.
  apply (generate_constant_lookup (interp := Toy.interp [inr "PI = 3"])
           (Toy.everything0 [inr "PI = 3"])
           (fst (_generate_constant (interp := Toy.interp [inr "PI = 3"]) "pi"
                   (Toy.everything0 [inr "PI = 3"])))
           "pi" (Toy.VStr "3")).
  apply pair_of_snd. vm_compute. reflexivity.
Defined.

(** ** Constructors *)

Section Constructors.

Context {interp : Interp}.

Lemma mem_singleton (k k' : string) (a : Arg) :
  ODict.mem k' [(k, a)] = String.eqb k' k.
Proof. unfold ODict.mem. cbn [ODict.lookup]. now destruct (String.eqb k' k). Qed.

Lemma call_keywords_duplicate (k : string) (a v : Arg) (kwargs : ODict.t Arg) :
  ODict.lookup k kwargs = Some v ->
  call_keywords [(k, a)] kwargs = inl TypeError.
Proof.
  intros H. unfold call_keywords.
  replace (existsb _ (ODict.keys kwargs)) with true; [reflexivity | ].
  symmetry. induction kwargs as [|[k' v'] d IH]; [discriminate | ].
  cbn [ODict.lookup] in H. cbn [ODict.keys map existsb fst].
  rewrite mem_singleton, (String.eqb_sym k' k).
  destruct (String.eqb k k'); [reflexivity | now apply IH].
Qed.

(** C7 (the code departs from the claim): whenever [cache_dir] is among
    the keyword arguments, [Everything.__init__] passes it twice to the
    base constructor and raises [TypeError]; no instance is built. *)
Theorem Everything_init_cache_dir_raises (kwargs : ODict.t Arg) (v : Arg) (w : World) :
  ODict.lookup "cache_dir" kwargs = Some v ->
  Everything_init kwargs w = (w, inl TypeError).
Proof.
  intros H. unfold Everything_init.
  now rewrite (call_keywords_duplicate _ _ v kwargs H).
Qed.

(** The other two surfaces take the argument as the cache directory. *)
Lemma BaseGenerator_init_cache_dir (kwargs : ODict.t Arg) (p : Path) (w : World) :
  forallb (fun k => existsb (String.eqb k) init_parameters) (ODict.keys kwargs) = true ->
  ODict.lookup "cache_dir" kwargs = Some (ArgPath p) ->
  exists w' g, BaseGenerator_init kwargs w = (w', inr g) /\ cache_dir g = p
               /\ files w' = files w.
Proof.
  intros Hkeys Hdir. unfold BaseGenerator_init. rewrite Hkeys, Hdir.
  eexists _, _. split; [reflexivity | split; reflexivity].
Qed.

Lemma Anything_init_cache_dir (kwargs : ODict.t Arg) (p : Path) (w : World) :
  forallb (fun k => existsb (String.eqb k) init_parameters) (ODict.keys kwargs) = true ->
  ODict.lookup "cache_dir" kwargs = Some (ArgPath p) ->
  exists w' g, Anything_init kwargs w = (w', inr g) /\ cache_dir g = p.
Proof.
  intros Hkeys Hdir.
  destruct (BaseGenerator_init_cache_dir kwargs p w Hkeys Hdir) as (w' & g & H & Hg & _).
  now exists w', g.
Qed.

Lemma LazyAnything_init_cache_dir (kwargs : ODict.t Arg) (p : Path) (w : World) :
  forallb (fun k => existsb (String.eqb k) init_parameters) (ODict.keys kwargs) = true ->
  ODict.lookup "cache_dir" kwargs = Some (ArgPath p) ->
  exists w' o, LazyAnything_init kwargs w = (w', inr o)
               /\ cache_dir (generator o) = p.
Proof.
  intros Hkeys Hdir.
  destruct (BaseGenerator_init_cache_dir kwargs p w Hkeys Hdir) as (w' & g & H & Hg & _).
  exists w', (mkLazy g ∅ [] false). split; [ | exact Hg].
  unfold LazyAnything_init, Anything_init. now rewrite (bind_ok _ _ _ _ _ H).
Qed.

(** Without the argument, [Everything] is built on its default directory. *)
Lemma Everything_init_default (kwargs : ODict.t Arg) (w : World) :
  forallb (fun k => existsb (String.eqb k) init_parameters) (ODict.keys kwargs) = true ->
  ODict.lookup "cache_dir" kwargs = None ->
  exists w' o, Everything_init kwargs w = (w', inr o)
               /\ cache_dir (base o) = default_everything_dir.
Proof.
  intros Hkeys Hdir. unfold Everything_init. rewrite Hdir. cbn [default].
  unfold call_keywords.
  assert (E : existsb (fun k => ODict.mem k [("cache_dir", ArgPath default_everything_dir)])
                      (ODict.keys kwargs) = false).
  { clear Hkeys. induction kwargs as [|[k v] d IH]; [reflexivity | ].
    cbn [ODict.lookup] in Hdir. cbn [ODict.keys map existsb fst].
    rewrite (String.eqb_sym "cache_dir" k) in Hdir.
    rewrite mem_singleton.
    destruct (String.eqb k "cache_dir"); [discriminate | ]. now apply IH. }
  rewrite E.
  destruct (BaseGenerator_init_cache_dir
              ([("cache_dir", ArgPath default_everything_dir)] ++ kwargs)%list
              default_everything_dir w) as (w' & g & H & Hg & _).
  - cbn [ODict.keys map app forallb fst].
    apply andb_true_iff. split; [reflexivity | exact Hkeys].
  - reflexivity.
  - exists w', (mkEverything g ∅ ∅ []). split; [ | exact Hg].
    now rewrite (bind_ok _ _ _ _ _ H).
Qed.

End Constructors.

Lemma Everything_init_cache_dir_raises_witness :
  Everything_init (interp := Toy.interp [])
                  [("cache_dir", ArgPath (Pathlib.parse "/tmp/cache"))]
                  (Toy.empty_world [])
  = (Toy.empty_world [], inl TypeError).
Proof.
  apply (Everything_init_cache_dir_raises (interp := Toy.interp [])
           _ (ArgPath (Pathlib.parse "/tmp/cache"))).
  reflexivity.
Defined.

(** ** Deferred mode *)

Section Deferred.

Context {interp : Interp}.

Lemma generate_all_when_generated (s : State LazyAnything) :
  _generated (self s) = true -> _generate_all s = (s, inr tt).
Proof. intros H. unfold _generate_all. run. now rewrite H. Qed.

(** A trigger that returns leaves the object generated. *)
Lemma generate_all_sets_generated (s s' : State LazyAnything) :
  _generate_all s = (s', inr tt) -> _generated (self s') = true.
Proof.
  unfold _generate_all. run.
  destruct (_generated (self s)) eqn:E.
  - intros H. injection H as <-. exact E.
  - destruct (for_each _ _ s) as [s1 [e | []]]; intros H; [discriminate | ].
    injection H as <-. reflexivity.
Qed.

Lemma wrapper_when_generated (s : State LazyAnything) (func : Func)
      (args : list Value) (kwargs : ODict.t Value) :
  _generated (self s) = true ->
  LazyAnything_wrapper func args kwargs s
  = match _registered_functions (self s) !! fn_name func with
    | Some f => on_world (call_value f args kwargs) s
    | None => (s, inl (KeyError (fn_name func)))
    end.
Proof.
  intros H. unfold LazyAnything_wrapper. run. rewrite H. cbn [negb]. run.
  now destruct (_registered_functions (self s) !! fn_name func).
Qed.

Lemma call_keeps_object {O : Type} (s : State O) (f : Value) (args : list Value)
      (kwargs : ODict.t Value) :
  self (fst (on_world (call_value f args kwargs) s)) = self s
  /\ calls (world (fst (on_world (call_value f args kwargs) s))) = calls (world s)
  /\ files (world (fst (on_world (call_value f args kwargs) s))) = files (world s).
Proof.
  run. destruct (py_call f args kwargs (env (world s))) as [ns r]. now repeat split.
Qed.

Lemma wrapper_keeps_generated (s : State LazyAnything) (func : Func)
      (args : list Value) (kwargs : ODict.t Value) :
  _generated (self s) = true ->
  self (fst (LazyAnything_wrapper func args kwargs s)) = self s
  /\ calls (world (fst (LazyAnything_wrapper func args kwargs s))) = calls (world s)
  /\ files (world (fst (LazyAnything_wrapper func args kwargs s))) = files (world s).
Proof.
  intros H. rewrite (wrapper_when_generated s func args kwargs H).
  destruct (_registered_functions (self s) !! fn_name func) as [f | ];
    [apply call_keeps_object | now repeat split].
Qed.

(** C5: once the trigger has fired ([_generated] is set, as every trigger
    that returns leaves it), firing it again through [generate_all],
    [finalize] or a wrapped function changes nothing: same state, hence
    no request to the endpoint, the same registered functions and the same
    flag; a wrapped function only goes on to apply its implementation. *)
Theorem second_trigger_is_noop (s : State LazyAnything) :
  _generated (self s) = true ->
  _generate_all s = (s, inr tt)
  /\ generate_all s = (s, inr tt)
  /\ finalize s = (s, inr tt)
  /\ forall func args kwargs,
      self (fst (LazyAnything_wrapper func args kwargs s)) = self s
      /\ calls (world (fst (LazyAnything_wrapper func args kwargs s))) = calls (world s)
      /\ files (world (fst (LazyAnything_wrapper func args kwargs s))) = files (world s).
Proof.
  intros H. repeat split; try (now apply generate_all_when_generated);
    now apply wrapper_keeps_generated.
Qed.

(** *** The generated state is terminal *)

Lemma frozen_refl (s : State LazyAnything) : _generated (self s) = true -> frozen s s.
Proof. intros H. now split. Qed.

Lemma frozen_step (s s' : State LazyAnything) (op : LazyOp) :
  frozen s s' -> frozen s (lazy_step s' op).
Proof.
  intros [Hg Hr Hc Hf].
  destruct op as [func | | | func args kwargs]; cbn [lazy_step].
  - now split.
  - unfold generate_all. rewrite (generate_all_when_generated s' Hg). now split.
  - unfold finalize. rewrite (generate_all_when_generated s' Hg). now split.
  - destruct (wrapper_keeps_generated s' func args kwargs Hg) as (Hs & Hc' & Hf'). split.
    + now rewrite Hs.
    + now rewrite Hs.
    + now rewrite Hc'.
    + now rewrite Hf'.
Qed.

Lemma frozen_run (ops : list LazyOp) (s s' : State LazyAnything) :
  frozen s s' -> frozen s (lazy_run ops s').
Proof.
  revert s'. induction ops as [|op ops IH]; intros s' H; [exact H | ].
  apply IH. now apply frozen_step.
Qed.

(** A registration made after generation is recorded as pending. *)
Lemma register_records_pending (s : State LazyAnything) (func : Func) :
  snd (register func s) = inr (LazyAnything_wrapper func)
  /\ ODict.lookup (fn_name func) (_pending_functions (self (fst (register func s))))
     = Some func.
Proof.
  split; [reflexivity | ]. unfold register. run.
  induction (_pending_functions (self s)) as [|[k v] d IH]; cbn [ODict.set ODict.lookup].
  - now rewrite String.eqb_refl.
  - destruct (String.eqb (fn_name func) k) eqn:E; cbn [ODict.lookup].
    + now rewrite String.eqb_refl.
    + rewrite E. exact IH.
Qed.

(** C4: from a generated state, whatever is called next ([register],
    [generate_all], [finalize], wrapped functions, in any order and
    number), the object stays generated, its registered functions are
    those it had, and no request reaches the endpoint; so the wrapper of a
    function whose name was not registered at generation raises
    [KeyError]: the function never becomes a registered one. *)
Theorem generated_is_terminal (s : State LazyAnything) (ops : list LazyOp) :
  _generated (self s) = true ->
  _generated (self (lazy_run ops s)) = true
  /\ _registered_functions (self (lazy_run ops s)) = _registered_functions (self s)
  /\ calls (world (lazy_run ops s)) = calls (world s)
  /\ forall func args kwargs,
      _registered_functions (self s) !! fn_name func = None ->
      LazyAnything_wrapper func args kwargs (lazy_run ops s)
      = (lazy_run ops s, inl (KeyError (fn_name func))).
Proof.
  intros H. destruct (frozen_run ops s s (frozen_refl s H)) as [Hg Hr Hc _].
  repeat split; try assumption.
  intros func args kwargs Hnew.
  rewrite (wrapper_when_generated _ func args kwargs Hg), Hr, Hnew. reflexivity.
Qed.

End Deferred.

Lemma second_trigger_is_noop_witness :
  generate_all (interp := Toy.interp Toy.three_replies) Toy.lazy_generated
  = (Toy.lazy_generated, inr tt)
  /\ List.length (calls (world Toy.lazy_generated)) = 3.
Proof.
  split; [ | vm_compute; reflexivity].
  apply (second_trigger_is_noop (interp := Toy.interp Toy.three_replies)
           Toy.lazy_generated).
  vm_compute. reflexivity.
Defined.

Lemma generated_is_terminal_witness :
  LazyAnything_wrapper (interp := Toy.interp Toy.three_replies) Toy.f_late [Toy.VStr "1+1"] []
    (lazy_run (interp := Toy.interp Toy.three_replies)
       [OpRegister (interp := Toy.interp Toy.three_replies) Toy.f_late;
        OpGenerateAll (interp := Toy.interp Toy.three_replies);
        OpFinalize (interp := Toy.interp Toy.three_replies)]
       Toy.lazy_generated)
  = (lazy_run (interp := Toy.interp Toy.three_replies)
       [OpRegister (interp := Toy.interp Toy.three_replies) Toy.f_late;
        OpGenerateAll (interp := Toy.interp Toy.three_replies);
        OpFinalize (interp := Toy.interp Toy.three_replies)]
       Toy.lazy_generated,
     inl (KeyError "calculator")).
Proof.
  apply (generated_is_terminal (interp := Toy.interp Toy.three_replies)
           Toy.lazy_generated); vm_compute; reflexivity.
Defined.

(** ** Generation and the cache store *)

(** Case analysis on every test a run goes through. *)
Ltac split_run :=
  repeat (match goal with
          | |- context [match ?x with _ => _ end] =>
              lazymatch x with
              | context [match _ with _ => _ end] => fail
              | _ => destruct x eqn:?
              end
          end; run).

Ltac close_run :=
  let H := fresh "H" in
  intros H; try discriminate H;
  injection H as <- <-; cbn [world self files calls env set_files set_calls set_env];
  try reflexivity.

Section Atomicity.

Context {interp : Interp}.

Lemma Anything_call_error_keeps_files (self : BaseGenerator) (func : Func)
      (context : string) (w w' : World) (e : Exn) :
  Anything_call self func context w = (w', inl e) -> files w' = files w.
Proof. unfold Anything_call. run. split_run; close_run. Qed.

Lemma generate_function_error_keeps_files (func_name : string) (args : list Value)
      (kwargs : ODict.t Value) (s s' : State Everything) (e : Exn) :
  _generate_function func_name args kwargs s = (s', inl e) ->
  files (world s') = files (world s).
Proof. unfold _generate_function. run. split_run; close_run. Qed.

(** A function generated on a cache miss is stored under its cache path. *)
Lemma Anything_call_miss_saves (self : BaseGenerator) (func : Func)
      (context : string) (w w' : World) (impl : Value) :
  files w !! _get_cache_path self (fn_name func) (_get_function_signature func ++ context)
  = None ->
  Anything_call self func context w = (w', inr impl) ->
  exists code,
    files w' = <[_get_cache_path self (fn_name func)
                   (_get_function_signature func ++ context) := code]> (files w)
    /\ List.length (calls w') = S (List.length (calls w)).
Proof.
  intros Hmiss. unfold Anything_call. run. rewrite Hmiss. run.
  rewrite py_bool_none.
  split_run; intros H; try discriminate H; injection H as <- <-;
    cbn [files calls set_files set_env set_calls];
    eexists; (split; [reflexivity | rewrite length_app; cbn; lia]).
Qed.

(** C10: when [Anything.__call__] or [Everything._generate_function] ends
    in an exception, whether from the endpoint, from the execution of the
    source text or from the missing target name, the files of the cache
    store are those it had before the call. *)
Theorem generation_error_keeps_cache :
  (forall (self : BaseGenerator) (func : Func) (context : string) (w w' : World) (e : Exn),
      Anything_call self func context w = (w', inl e) -> files w' = files w)
  /\ (forall (func_name : string) (args : list Value) (kwargs : ODict.t Value)
             (s s' : State Everything) (e : Exn),
         _generate_function func_name args kwargs s = (s', inl e) ->
         files (world s') = files (world s)).
Proof.
  split.
  - apply Anything_call_error_keeps_files.
  - apply generate_function_error_keeps_files.
Qed.

End Atomicity.

Lemma generation_error_keeps_cache_witness :
  files (world (fst (_generate_function (interp := Toy.interp [inr "oops"])
                       "area" [Toy.VInt 1] [] (Toy.everything0 [inr "oops"]))))
  = files (world (Toy.everything0 [inr "oops"]))
  /\ files (fst (Anything_call (interp := Toy.interp [inr "def other (): return 0"])
                   Toy.base0
                   (Toy.declared_in [inr "def other (): return 0"] "area" "Area" [])
                   "" (Toy.empty_world [inr "def other (): return 0"])))
     = files (Toy.empty_world [inr "def other (): return 0"]).
Proof.
  split.
  - apply (proj2 (generation_error_keeps_cache (interp := Toy.interp [inr "oops"]))
             "area" [Toy.VInt 1] [] (Toy.everything0 [inr "oops"]) _
             (Failure "SyntaxError")).
    apply pair_of_snd. vm_compute. reflexivity.
  - apply (proj1 (generation_error_keeps_cache
                    (interp := Toy.interp [inr "def other (): return 0"]))
             Toy.base0
             (Toy.declared_in [inr "def other (): return 0"] "area" "Area" [])
             "" (Toy.empty_world [inr "def other (): return 0"]) _
             (KeyError "area")).
    apply pair_of_snd. vm_compute. reflexivity.
Defined.

(** ** Reuse of generated artifacts *)

Ltac destruct_call :=
  match goal with
  | |- context [py_call ?f ?a ?k ?ns] =>
      let ns' := fresh "ns" in
      let r := fresh "r" in
      destruct (py_call f a k ns) as [ns' r]
  end; run.

Section Reuse.

Context {interp : Interp}.

(** A call whose key is in [_functions] applies the stored callable. *)
Lemma getattr_cached (s : State Everything) (func_name : string)
      (args : list Value) (kwargs : ODict.t Value) (f : Value) :
  _functions (self s) !! _get_cache_key func_name args kwargs = Some f ->
  Everything_getattr func_name args kwargs s = on_world (call_value f args kwargs) s.
Proof.
  intros H. unfold Everything_getattr. run. rewrite H. run. rewrite H. reflexivity.
Qed.

(** A call that returns leaves its key in [_functions]. *)
Lemma getattr_stores (s s1 : State Everything) (func_name : string)
      (args : list Value) (kwargs : ODict.t Value) (v : Value) :
  Everything_getattr func_name args kwargs s = (s1, inr v) ->
  is_Some (_functions (self s1) !! _get_cache_key func_name args kwargs).
Proof.
  unfold Everything_getattr. run.
  destruct (_functions (self s) !! _get_cache_key func_name args kwargs) as [f | ] eqn:E;
    run.
  - rewrite E. run.
    destruct_call. intros H.
    injection H as <- Hr. cbn [self]. rewrite E. now eexists.
  - destruct (_generate_function func_name args kwargs s) as [s2 [e | f]]; run;
      [discriminate | ].
    rewrite lookup_insert_eq.
    destruct_call. intros H.
    injection H as <- Hr. cbn [self _functions]. rewrite lookup_insert_eq. now eexists.
Qed.

Lemma generate_function_stored (s s2 : State Everything) (func_name : string)
      (args : list Value) (kwargs : ODict.t Value) (f : Value) :
  _generate_function func_name args kwargs s = (s2, inr f) ->
  is_Some (files (world s2)
           !! _get_cache_path (base (self s)) func_name
                (_get_cache_key func_name args kwargs)).
Proof.
  unfold _generate_function. run.
  destruct (files (world s) !! _) as [code | ] eqn:E; run.
  - split_run; intros H; try discriminate H; injection H as <- Hr;
      cbn [world files set_env set_files set_calls]; rewrite ?E, ?lookup_insert_eq;
      now eexists.
  - rewrite py_bool_none.
    split_run; intros H; try discriminate H; injection H as <- Hr;
      cbn [world files set_env set_files set_calls]; rewrite ?lookup_insert_eq;
      now eexists.
Qed.

Lemma getitem_cached (s : State Everything) (const_name : string) (v : Value) :
  _constants (self s) !! const_name = Some v ->
  Everything_getitem const_name s = (s, inr v).
Proof.
  intros H. unfold Everything_getitem. run. rewrite H. run. rewrite H. reflexivity.
Qed.

Lemma getitem_stores (s s1 : State Everything) (const_name : string) (v : Value) :
  Everything_getitem const_name s = (s1, inr v) ->
  _constants (self s1) !! const_name = Some v.
Proof.
  unfold Everything_getitem. run.
  destruct (_constants (self s) !! const_name) as [c | ] eqn:E; run.
  - rewrite E. intros H. injection H as <- <-. exact E.
  - destruct (_generate_constant const_name s) as [s2 [e | c]]; run; [discriminate | ].
    rewrite lookup_insert_eq. intros H. injection H as <- <-.
    cbn [self _constants]. apply lookup_insert_eq.
Qed.

(** C6: once a call of a function name has returned, a further call of
    that name with the same argument type names (positional, and keyword
    in passing order) applies the callable stored for that shape, and once
    a constant has been returned, a further access returns that same
    value; neither sends a request to the endpoint nor touches the cache
    files. *)
Theorem second_access_uses_cache :
  (forall (s s1 : State Everything) (func_name : string)
          (args args' : list Value) (kwargs kwargs' : ODict.t Value) (v : Value),
      Everything_getattr func_name args kwargs s = (s1, inr v) ->
      arg_types args' = arg_types args ->
      kwarg_types kwargs' = kwarg_types kwargs ->
      exists f,
        _functions (self s1) !! _get_cache_key func_name args kwargs = Some f
        /\ Everything_getattr func_name args' kwargs' s1
           = on_world (call_value f args' kwargs') s1
        /\ calls (world (fst (Everything_getattr func_name args' kwargs' s1)))
           = calls (world s1)
        /\ files (world (fst (Everything_getattr func_name args' kwargs' s1)))
           = files (world s1))
  /\ (forall (s s1 : State Everything) (const_name : string) (v : Value),
         Everything_getitem const_name s = (s1, inr v) ->
         Everything_getitem const_name s1 = (s1, inr v)).
Proof.
  split.
  - intros s s1 func_name args args' kwargs kwargs' v Hfirst Ha Hk.
    destruct (getattr_stores _ _ _ _ _ _ Hfirst) as [f Hf].
    assert (Ekey : _get_cache_key func_name args' kwargs'
                   = _get_cache_key func_name args kwargs).
    { unfold _get_cache_key. now rewrite Ha, Hk. }
    assert (Hsecond : Everything_getattr func_name args' kwargs' s1
                      = on_world (call_value f args' kwargs') s1).
    { apply getattr_cached. now rewrite Ekey. }
    exists f. split; [exact Hf | ]. split; [exact Hsecond | ].
    rewrite Hsecond. split; apply call_keeps_object.
  - intros s s1 const_name v Hfirst.
    apply getitem_cached. now apply getitem_stores in Hfirst.
Qed.

(** The first call of a shape leaves its source text in the cache store. *)
Lemma first_call_fills_cache (s s1 : State Everything) (func_name : string)
      (args : list Value) (kwargs : ODict.t Value) (v : Value) :
  _functions (self s) !! _get_cache_key func_name args kwargs = None ->
  Everything_getattr func_name args kwargs s = (s1, inr v) ->
  is_Some (files (world s1)
           !! _get_cache_path (base (self s)) func_name
                (_get_cache_key func_name args kwargs)).
Proof.
  intros Hnew. unfold Everything_getattr. run. rewrite Hnew. run.
  destruct (_generate_function func_name args kwargs s) as [s2 [e | f]] eqn:G; run;
    [discriminate | ].
  rewrite lookup_insert_eq.
  destruct_call. intros H.
  injection H as <- Hr. cbn [world files set_env].
  now apply generate_function_stored in G.
Qed.

End Reuse.

Lemma second_access_uses_cache_witness :
  snd (Everything_getattr (interp := Toy.interp [inr "def add (a, b): return a + b"])
         "add" [Toy.VInt 3; Toy.VInt 4] []
         (fst (Everything_getattr (interp := Toy.interp [inr "def add (a, b): return a + b"])
                 "add" [Toy.VInt 1; Toy.VInt 2] []
                 (Toy.everything0 [inr "def add (a, b): return a + b"]))))
  = inr Toy.VNone
  /\ List.length
       (calls (world
          (fst (Everything_getattr (interp := Toy.interp [inr "def add (a, b): return a + b"])
                  "add" [Toy.VInt 3; Toy.VInt 4] []
                  (fst (Everything_getattr (interp := Toy.interp [inr "def add (a, b): return a + b"])
                          "add" [Toy.VInt 1; Toy.VInt 2] []
                          (Toy.everything0 [inr "def add (a, b): return a + b"]))))))) = 1
  /\ Everything_getitem (interp := Toy.interp [inr "PI = 3"]) "pi"
       (fst (Everything_getitem (interp := Toy.interp [inr "PI = 3"]) "pi"
               (Toy.everything0 [inr "PI = 3"])))
     = (fst (Everything_getitem (interp := Toy.interp [inr "PI = 3"]) "pi"
               (Toy.everything0 [inr "PI = 3"])),
        inr (Toy.VStr "3")).
Proof.
  split; [vm_compute; reflexivity | ]. split.
  - destruct (proj1 (second_access_uses_cache
                       (interp := Toy.interp [inr "def add (a, b): return a + b"]))
                (Toy.everything0 [inr "def add (a, b): return a + b"])
                (fst (Everything_getattr
                        (interp := Toy.interp [inr "def add (a, b): return a + b"])
                        "add" [Toy.VInt 1; Toy.VInt 2] []
                        (Toy.everything0 [inr "def add (a, b): return a + b"])))
                "add" [Toy.VInt 1; Toy.VInt 2] [Toy.VInt 3; Toy.VInt 4] [] []
                Toy.VNone)
      as (f & _ & _ & Hcalls & _).
    + apply pair_of_snd. vm_compute. reflexivity.
    + reflexivity.
    + reflexivity.
    + rewrite Hcalls. vm_compute. reflexivity.
  - apply (proj2 (second_access_uses_cache (interp := Toy.interp [inr "PI = 3"]))
             (Toy.everything0 [inr "PI = 3"])).
    apply pair_of_snd. vm_compute. reflexivity.
Defined.

(** * Further properties *)

(** ** What [_clean_code] returns *)

Lemma lstrip_idempotent (s : string) : PyStr.lstrip (PyStr.lstrip s) = PyStr.lstrip s.
Proof.
  induction s as [|c s IH]; [reflexivity | ].
  cbn [PyStr.lstrip]. destruct (PyStr.is_space c) eqn:E; [exact IH | ].
  cbn [PyStr.lstrip]. now rewrite E.
Qed.

Lemma rstrip_idempotent (s : string) : PyStr.rstrip (PyStr.rstrip s) = PyStr.rstrip s.
Proof.
  induction s as [|c s IH]; [reflexivity | ].
  cbn [PyStr.rstrip].
  destruct (PyStr.is_space c && PyStr.is_empty (PyStr.rstrip s)) eqn:E; [reflexivity | ].
  cbn [PyStr.rstrip]. now rewrite IH, E.
Qed.

Lemma rstrip_lstrip (s : string) :
  PyStr.rstrip (PyStr.lstrip s) = PyStr.lstrip (PyStr.rstrip s).
Proof.
  induction s as [|c s IH]; [reflexivity | ].
  cbn [PyStr.lstrip PyStr.rstrip]. destruct (PyStr.is_space c) eqn:E; cbn [andb].
  - rewrite IH. destruct (PyStr.rstrip s) as [|d r]; cbn [PyStr.is_empty PyStr.lstrip];
      [reflexivity | now rewrite E].
  - cbn [PyStr.lstrip PyStr.rstrip]. now rewrite E.
Qed.

Lemma strip_idempotent (s : string) : PyStr.strip (PyStr.strip s) = PyStr.strip s.
Proof.
  unfold PyStr.strip.
  now rewrite rstrip_lstrip, rstrip_idempotent, lstrip_idempotent.
Qed.

Lemma strip_unfold (content : string) : exists t, _clean_code content = PyStr.strip t.
Proof. unfold _clean_code. now eexists. Qed.

(** X1: the text [_clean_code] returns has no white space left at either
    end: stripping it again, on the left, on the right or on both sides,
    changes nothing. *)
Theorem clean_code_is_stripped (content : string) :
  PyStr.strip (_clean_code content) = _clean_code content
  /\ PyStr.lstrip (_clean_code content) = _clean_code content
  /\ PyStr.rstrip (_clean_code content) = _clean_code content.
Proof.
  destruct (strip_unfold content) as [t ->]. split; [apply strip_idempotent | ].
  unfold PyStr.strip. split.
  - apply lstrip_idempotent.
  - now rewrite rstrip_lstrip, rstrip_idempotent.
Qed.

Lemma rstrip_append_nonspace (s : string) (c : ascii) :
  PyStr.is_space c = false ->
  PyStr.rstrip (s ++ String c "") = s ++ String c "".
Proof.
  intros Hc. induction s as [|x s IH]; cbn [append PyStr.rstrip].
  - now rewrite Hc.
  - rewrite IH. destruct s; cbn [append PyStr.is_empty]; now rewrite andb_false_r.
Qed.

Lemma strip_newline_backtick (body : string) :
  PyStr.strip (LF ++ (body ++ LF ++ "`")) = PyStr.lstrip (body ++ LF ++ "`").
Proof.
  unfold LF at 1. cbn [append]. rewrite strip_cons_space by reflexivity.
  unfold PyStr.strip. f_equal.
  replace (body ++ LF ++ "`") with ((body ++ LF) ++ String "`" "")
    by now rewrite append_assoc.
  now apply rstrip_append_nonspace.
Qed.

Lemma slice_after_fence (opening body : string) (n : nat) :
  String.length opening = n ->
  PyStr.slice (opening ++ (LF ++ body ++ LF ++ "```" ++ LF)) n 3
  = LF ++ (body ++ LF ++ "`").
Proof.
  intros <-.
  replace (opening ++ (LF ++ body ++ LF ++ "```" ++ LF))
    with (opening ++ (LF ++ (body ++ LF ++ "`")) ++ ("``" ++ LF)).
  - apply (slice_middle opening (LF ++ (body ++ LF ++ "`")) ("``" ++ LF)).
  - f_equal. rewrite !append_assoc. reflexivity.
Qed.

(** X2: when a line break follows the closing fence, the three characters
    [_clean_code] cuts at the end are two backticks and the line break:
    the result is the body stripped on the left, followed by a line break
    and one backtick, for the fence tagged [python] and for the bare one. *)
Theorem clean_code_newline_after_fence (body : string) :
  _clean_code (fenced "python" body ++ LF) = PyStr.lstrip (body ++ LF ++ "`")
  /\ _clean_code (fenced "" body ++ LF) = PyStr.lstrip (body ++ LF ++ "`").
Proof.
  unfold _clean_code, fenced. split.
  - replace (PyStr.startswith _ "```python") with true by reflexivity.
    replace (("```" ++ "python" ++ LF ++ body ++ LF ++ "```") ++ LF)
      with ("```python" ++ (LF ++ body ++ LF ++ "```" ++ LF))
      by (rewrite !append_assoc; reflexivity).
    rewrite (slice_after_fence "```python" body 9 eq_refl).
    apply strip_newline_backtick.
  - replace (PyStr.startswith _ "```python") with false by reflexivity.
    replace (PyStr.startswith _ "```") with true by reflexivity.
    replace (("```" ++ "" ++ LF ++ body ++ LF ++ "```") ++ LF)
      with ("```" ++ (LF ++ body ++ LF ++ "```" ++ LF))
      by (rewrite !append_assoc; reflexivity).
    rewrite (slice_after_fence "```" body 3 eq_refl).
    apply strip_newline_backtick.
Qed.

(** ** The shape of a cache path *)

Lemma round_length (ws st : list Z) (t : nat) :
  List.length (SHA256.round ws st t) = List.length st.
Proof.
  unfold SHA256.round.
  do 9 (destruct st as [|? st]; [reflexivity | ]). reflexivity.
Qed.

Lemma rounds_length (ws : list Z) (ts : list nat) (st : list Z) :
  List.length (fold_left (SHA256.round ws) ts st) = List.length st.
Proof.
  revert st. induction ts as [|t ts IH]; intros st; [reflexivity | ].
  cbn [fold_left]. now rewrite IH, round_length.
Qed.

Lemma compress_length (h block : list Z) :
  List.length (SHA256.compress h block) = List.length h.
Proof.
  unfold SHA256.compress.
  rewrite length_map, length_combine, rounds_length. lia.
Qed.

Lemma digest_length (msg : list Z) : List.length (SHA256.digest msg) = 8.
Proof.
  unfold SHA256.digest.
  generalize (SHA256.blocks
                (List.length (SHA256.be_words (List.length (SHA256.pad msg)) (SHA256.pad msg)))
                (SHA256.be_words (List.length (SHA256.pad msg)) (SHA256.pad msg))).
  intros bl. change 8 with (List.length SHA256.H0). generalize SHA256.H0.
  induction bl as [|b bl IH]; intros h; [reflexivity | ].
  cbn [fold_left]. now rewrite IH, compress_length.
Qed.

Lemma hex_length (bs : list Z) : String.length (SHA256.hex bs) = 2 * List.length bs.
Proof.
  induction bs as [|b bs IH]; [reflexivity | ].
  cbn [SHA256.hex fold_right]. fold (SHA256.hex bs).
  unfold SHA256.hex_of_byte, PyRepr.hex2. cbn [append String.length List.length].
  rewrite IH. lia.
Qed.

Lemma word_bytes_length (ws : list Z) :
  List.length (flat_map (SHA256.be_bytes 4) ws) = 4 * List.length ws.
Proof.
  induction ws as [|w ws IH]; [reflexivity | ].
  cbn [flat_map]. rewrite length_app, IH. cbn [SHA256.be_bytes List.length]. lia.
Qed.

Lemma hex_digit_lower_hex (n : N) : is_lower_hex (PyRepr.hex_digit n) = true.
Proof.
  unfold PyRepr.hex_digit. generalize (N.to_nat n). intros k.
  do 16 (destruct k as [|k]; [reflexivity | ]). reflexivity.
Qed.

Lemma hex_lower_hex (bs : list Z) : all_chars is_lower_hex (SHA256.hex bs) = true.
Proof.
  induction bs as [|b bs IH]; [reflexivity | ].
  cbn [SHA256.hex fold_right]. fold (SHA256.hex bs).
  unfold SHA256.hex_of_byte, PyRepr.hex2. cbn [append all_chars].
  now rewrite !hex_digit_lower_hex, IH.
Qed.

Lemma hexdigest_length (cache_key : string) :
  String.length (SHA256.hexdigest cache_key) = 64.
Proof.
  unfold SHA256.hexdigest.
  now rewrite hex_length, word_bytes_length, digest_length.
Qed.

(** X3: the digest that enters a cache path is made of 64 characters, all
    of them digits or letters from [a] to [f], whatever the key. *)
Theorem hexdigest_shape (cache_key : string) :
  String.length (SHA256.hexdigest cache_key) = 64
  /\ all_chars is_lower_hex (SHA256.hexdigest cache_key) = true.
Proof.
  split; [apply hexdigest_length | apply hex_lower_hex].
Qed.

Lemma startswith_sep_plain (id_ rest : string) :
  no_sep id_ -> PyStr.startswith (id_ ++ "_" ++ rest) "/" = false.
Proof.
  intros H. destruct id_ as [|c id_]; [reflexivity | ].
  unfold no_sep in H. cbn [PyRepr.contains] in H.
  apply orb_false_iff in H as [H _].
  cbn [append PyStr.startswith]. unfold Pathlib.sep in H. now rewrite H.
Qed.

(** X4: for a name without path separator, the cache path lies directly
    in the cache directory and its last component is the name, an
    underscore, the digest of the key and [.py]: 68 characters more than
    the name. *)
Theorem cache_path_of_plain_name (self : BaseGenerator) (id_ cache_key : string) :
  no_sep id_ ->
  _get_cache_path self id_ cache_key
  = mkPath (Pathlib.root (cache_dir self))
           (Pathlib.parts (cache_dir self)
              ++ [(id_ ++ "_" ++ SHA256.hexdigest cache_key ++ ".py")%string])%list
  /\ String.length (id_ ++ "_" ++ SHA256.hexdigest cache_key ++ ".py")
     = String.length id_ + 68.
Proof.
  intros Hid. split.
  - unfold _get_cache_path, Pathlib.truediv.
    rewrite (startswith_sep_plain id_ _ Hid). f_equal. f_equal.
    unfold Pathlib.components. rewrite split_no_sep.
    + cbn [List.filter]. rewrite is_component_long; [reflexivity | ].
      rewrite !length_append. cbn [String.length]. lia.
    + unfold no_sep in *. rewrite contains_append, Hid. cbn [orb].
      apply plain_suffix_no_sep, cache_file_suffix, hexdigest_no_sep.
  - rewrite !length_append. cbn [String.length].
    rewrite (hexdigest_length cache_key). cbn [String.length]. lia.
Qed.

Lemma cache_path_of_plain_name_witness :
  _get_cache_path Toy.base0 "add" "add_['int', 'int']_{}"
  = mkPath (Pathlib.root (cache_dir Toy.base0))
           (Pathlib.parts (cache_dir Toy.base0)
              ++ [("add" ++ "_" ++ SHA256.hexdigest "add_['int', 'int']_{}" ++ ".py")%string])%list
  /\ String.length ("add" ++ "_" ++ SHA256.hexdigest "add_['int', 'int']_{}" ++ ".py")
     = String.length "add" + 68.
Proof.
  apply (cache_path_of_plain_name Toy.base0 "add" "add_['int', 'int']_{}").
  reflexivity.
Defined.

(** X5: a name that starts with a path separator makes the cache path
    absolute: it has a root of its own and does not depend on the cache
    directory. *)
Theorem cache_path_of_absolute_name (self1 self2 : BaseGenerator) (id_ cache_key : string) :
  PyStr.startswith id_ "/" = true ->
  _get_cache_path self1 id_ cache_key = _get_cache_path self2 id_ cache_key
  /\ Pathlib.root (_get_cache_path self1 id_ cache_key) <> "".
Proof.
  intros H. destruct id_ as [|c id_]; [discriminate | ].
  cbn [PyStr.startswith] in H. rewrite andb_true_r in H.
  unfold _get_cache_path, Pathlib.truediv. cbn [append PyStr.startswith].
  rewrite H. cbn [andb]. split; [reflexivity | ].
  unfold Pathlib.parse, Pathlib.splitroot. cbn [PyStr.startswith].
  rewrite H. cbn [andb negb].
  destruct (negb _ || _); discriminate.
Qed.

Lemma cache_path_of_absolute_name_witness :
  _get_cache_path Toy.base0 "/tmp/f" "k"
  = _get_cache_path (mkBase (Pathlib.parse "/var/cache") "m") "/tmp/f" "k"
  /\ Pathlib.root (_get_cache_path Toy.base0 "/tmp/f" "k") <> "".
Proof.
  apply (cache_path_of_absolute_name Toy.base0 (mkBase (Pathlib.parse "/var/cache") "m")
           "/tmp/f" "k").
  reflexivity.
Defined.

(** ** [BaseGenerator._load_from_cache] and [Anything.__call__] *)

Section Direct.

Context {interp : Interp}.

(** X6: loading from the cache reads: whatever it finds and however the
    execution of the cached text ends, the cache files and the endpoint
    log are as before; on a miss the whole world is, and the result is
    [None]. *)
Theorem load_from_cache_reads_only (self : BaseGenerator) (cache_path : Path)
        (func_name : string) (w : World) :
  files (fst (_load_from_cache self cache_path func_name w)) = files w
  /\ calls (fst (_load_from_cache self cache_path func_name w)) = calls w
  /\ (files w !! cache_path = None ->
      _load_from_cache self cache_path func_name w = (w, inr py_none)).
Proof.
  unfold _load_from_cache. run.
  destruct (files w !! cache_path) as [code | ]; run.
  - destruct (py_exec code (env w)) as [ns [e | ]]; now repeat split.
  - now repeat split.
Qed.

(** X7: a cache hit.  When the file of the cache path exists and its
    execution in the namespace binds the function name to a true value,
    [Anything.__call__] returns that value; the namespace is the one the
    execution left, no request is sent and no file written. *)
Theorem Anything_call_cache_hit (self : BaseGenerator) (func : Func) (context : string)
        (w : World) (code : string) (ns : Namespace) (f : Value) :
  files w !! Anything_path self func context = Some code ->
  py_exec code (env w) = (ns, None) ->
  ns !! fn_name func = Some f ->
  py_bool f = true ->
  Anything_call self func context w = (mkWorld (files w) (calls w) ns, inr f).
Proof.
  unfold Anything_path. intros Hfile Hexec Hname Htrue.
  unfold Anything_call. run. rewrite Hfile. run. rewrite Hexec. run.
  rewrite Hname. change (default py_none (Some f)) with f.
  rewrite Htrue. reflexivity.
Qed.

(** X8: a stale cache file.  When the file exists but its execution leaves
    the function name unbound or bound to a false value, the function is
    generated anew: one request is sent, the reply is executed in the
    namespace the cached text left, and the file is overwritten with the
    new source. *)
Theorem Anything_call_stale_file (self : BaseGenerator) (func : Func) (context : string)
        (w : World) (code content : string) (ns ns' : Namespace) (f : Value) :
  files w !! Anything_path self func context = Some code ->
  py_exec code (env w) = (ns, None) ->
  py_bool (default py_none (ns !! fn_name func)) = false ->
  endpoint (calls w) (Anything_request self func context) = inr content ->
  py_exec (_clean_code content) ns = (ns', None) ->
  ns' !! fn_name func = Some f ->
  Anything_call self func context w
  = (mkWorld (<[Anything_path self func context := _clean_code content]> (files w))
             (calls w ++ [Anything_request self func context])%list
             ns',
     inr f).
Proof.
  unfold Anything_path, Anything_request, Anything_prompt.
  intros Hfile Hexec Hfalse Hreply Hexec' Hname.
  unfold Anything_call. run. rewrite Hfile. run. rewrite Hexec. run.
  rewrite Hfalse. run. rewrite Hreply. run. rewrite Hexec'. run.
  rewrite Hname. reflexivity.
Qed.

(** What a call leaves of the world. *)
Lemma Anything_call_frame (self : BaseGenerator) (func : Func) (context : string)
      (w : World) :
  (calls (fst (Anything_call self func context w)) = calls w
   \/ calls (fst (Anything_call self func context w))
      = (calls w ++ [Anything_request self func context])%list)
  /\ (files (fst (Anything_call self func context w)) = files w
      \/ exists code,
          files (fst (Anything_call self func context w))
          = <[Anything_path self func context := code]> (files w)).
Proof.
  unfold Anything_path, Anything_request, Anything_prompt, Anything_call. run.
  split_run; cbn [fst files calls set_files set_calls set_env]; split;
    solve [now left | now right | right; now eexists].
Qed.

(** X9: one call of [Anything.__call__] sends at most one request, the one
    for its function and context, and writes no file other than the one of
    its own cache path. *)
Theorem Anything_call_footprint (self : BaseGenerator) (func : Func) (context : string)
        (w : World) :
  (calls (fst (Anything_call self func context w)) = calls w
   \/ calls (fst (Anything_call self func context w))
      = (calls w ++ [Anything_request self func context])%list)
  /\ forall p : Path,
      p <> Anything_path self func context ->
      files (fst (Anything_call self func context w)) !! p = files w !! p.
Proof.
  destruct (Anything_call_frame self func context w) as [Hc Hf].
  split; [exact Hc | ]. intros p Hp.
  destruct Hf as [-> | [code ->]]; [reflexivity | ].
  now rewrite lookup_insert_ne.
Qed.

End Direct.

Lemma Anything_call_cache_hit_witness :
  Anything_call (interp := Toy.interp Scenario.area_script) Toy.base0 Scenario.f_area ""
                Scenario.world_after_area
  = (mkWorld (interp := Toy.interp Scenario.area_script)
             (files Scenario.world_after_area) (calls Scenario.world_after_area)
             (fst (Toy.exec Scenario.area_source (env Scenario.world_after_area))),
     inr (Toy.VFun Scenario.area_source)).
Proof.
  apply (Anything_call_cache_hit (interp := Toy.interp Scenario.area_script)
           Toy.base0 Scenario.f_area "" Scenario.world_after_area Scenario.area_source).
  - vm_compute. reflexivity.
  - apply pair_of_snd. vm_compute. reflexivity.
  - vm_compute. reflexivity.
  - reflexivity.
Defined.

Lemma Anything_call_stale_file_witness :
  Anything_call (interp := Toy.interp Scenario.area_script) Toy.base0 Scenario.f_area ""
                Scenario.stale_world
  = (mkWorld (interp := Toy.interp Scenario.area_script)
       (<[Anything_path (interp := Toy.interp Scenario.area_script)
            Toy.base0 Scenario.f_area ""
          := _clean_code (fenced "python" Scenario.area_source)]>
          (files Scenario.stale_world))
       (calls Scenario.stale_world
          ++ [Anything_request (interp := Toy.interp Scenario.area_script)
                Toy.base0 Scenario.f_area ""])%list
       (fst (Toy.exec (_clean_code (fenced "python" Scenario.area_source))
               (fst (Toy.exec "x = 1" ∅)))),
     inr (Toy.VFun Scenario.area_source)).
Proof.
  apply (Anything_call_stale_file (interp := Toy.interp Scenario.area_script)
           Toy.base0 Scenario.f_area "" Scenario.stale_world "x = 1"
           (fenced "python" Scenario.area_source) (fst (Toy.exec "x = 1" ∅))).
  - vm_compute. reflexivity.
  - apply pair_of_snd. vm_compute. reflexivity.
  - vm_compute. reflexivity.
  - vm_compute. reflexivity.
  - apply pair_of_snd. vm_compute. reflexivity.
  - vm_compute. reflexivity.
Defined.

(** ** Deferred mode: registration and the trigger *)

Section Trigger.

Context {interp : Interp}.

Lemma lookup_set_eq {V : Type} (k : string) (v : V) (d : ODict.t V) :
  ODict.lookup k (ODict.set k v d) = Some v.
Proof.
  induction d as [|[k' v'] d IH]; cbn [ODict.set ODict.lookup].
  - now rewrite String.eqb_refl.
  - destruct (String.eqb k k') eqn:E; cbn [ODict.lookup].
    + now rewrite String.eqb_refl.
    + now rewrite E.
Qed.

Lemma lookup_set_ne {V : Type} (k k' : string) (v : V) (d : ODict.t V) :
  k' <> k -> ODict.lookup k' (ODict.set k v d) = ODict.lookup k' d.
Proof.
  intros Hne. apply String.eqb_neq in Hne.
  induction d as [|[k0 v0] d IH]; cbn [ODict.set ODict.lookup].
  - now rewrite Hne.
  - destruct (String.eqb k k0) eqn:E; cbn [ODict.lookup].
    + apply String.eqb_eq in E. subst k0. now rewrite Hne.
    + now rewrite IH.
Qed.

Lemma keys_set {V : Type} (k : string) (v : V) (d : ODict.t V) :
  ODict.keys (ODict.set k v d)
  = if ODict.mem k d then ODict.keys d else (ODict.keys d ++ [k])%list.
Proof.
  unfold ODict.mem, ODict.keys.
  induction d as [|[k0 v0] d IH]; cbn [ODict.set ODict.lookup map fst app];
    [reflexivity | ].
  destruct (String.eqb k k0) eqn:E; cbn [map fst].
  - apply String.eqb_eq in E. now subst k0.
  - rewrite IH. now destruct (ODict.lookup k d).
Qed.

(** X10: [register] changes the pending declarations and nothing else: no
    request, no file, no registered function, the flag as it was.  The
    name maps to the declaration just given; a name already pending keeps
    its place, a new one goes last; the other names keep theirs. *)
Theorem register_updates_pending (s : State LazyAnything) (func : Func) :
  world (fst (register func s)) = world s
  /\ _registered_functions (self (fst (register func s))) = _registered_functions (self s)
  /\ _generated (self (fst (register func s))) = _generated (self s)
  /\ ODict.lookup (fn_name func) (_pending_functions (self (fst (register func s))))
     = Some func
  /\ (forall k, k <> fn_name func ->
        ODict.lookup k (_pending_functions (self (fst (register func s))))
        = ODict.lookup k (_pending_functions (self s)))
  /\ ODict.keys (_pending_functions (self (fst (register func s))))
     = if ODict.mem (fn_name func) (_pending_functions (self s))
       then ODict.keys (_pending_functions (self s))
       else (ODict.keys (_pending_functions (self s)) ++ [fn_name func])%list.
Proof.
  unfold register. run. repeat split.
  - apply lookup_set_eq.
  - intros k Hk. now apply lookup_set_ne.
  - apply keys_set.
Qed.

(** *** The loop of [_generate_all] *)

Lemma generate_all_unfold (s : State LazyAnything) :
  _generated (self s) = false ->
  _generate_all s
  = bind (for_each (_pending_functions (self s))
                   (generate_one (generator (self s)) (_build_context (self s))))
         (fun _ => on_self (fun o => mkLazy (generator o) (_registered_functions o)
                                            (_pending_functions o) true))
         s.
Proof.
  intros H. unfold _generate_all. unfold bind at 1. unfold get. now rewrite H.
Qed.

Lemma generate_one_run (g : BaseGenerator) (context : string) (nf : string * Func)
      (s : State LazyAnything) :
  generate_one g context nf s
  = match Anything_call g (snd nf) context (world s) with
    | (w, inr impl) =>
        (mkState w (mkLazy (generator (self s))
                           (<[fst nf := impl]> (_registered_functions (self s)))
                           (_pending_functions (self s)) (_generated (self s))),
         inr tt)
    | (w, inl e) => (mkState w (self s), inl e)
    end.
Proof.
  unfold generate_one. run.
  now destruct (Anything_call g (snd nf) context (world s)) as [w [e | impl]].
Qed.

Lemma for_each_generate (g : BaseGenerator) (context : string) (l : ODict.t Func) :
  forall s s' r,
    for_each l (generate_one g context) s = (s', r) -> loop_post g context l s s' r.
Proof.
  induction l as [|nf l IH]; intros s s' r H.
  - injection H as <- <-. split; try reflexivity; try tauto.
    + intros _ nf [].
    + exists []. split; [now rewrite app_nil_r | constructor].
  - cbn [for_each] in H. unfold bind in H. rewrite generate_one_run in H.
    destruct (Anything_call_frame g (snd nf) context (world s)) as [Hcalls _].
    destruct (Anything_call g (snd nf) context (world s)) as [w [e | impl]];
      cbn [fst] in Hcalls.
    + injection H as <- <-. split; try reflexivity; try tauto; try discriminate.
      cbn [world map].
      destruct Hcalls as [-> | ->].
      * exists []. split; [now rewrite app_nil_r | apply sublist_nil_l].
      * eexists. split; [reflexivity | ]. apply sublist_skip, sublist_nil_l.
    + apply IH in H. destruct H as [Hg Hp Hgen Hkeep Hreg (rs & Hrs & Hsub)].
      cbn [self world generator _pending_functions _generated _registered_functions] in *.
      split; try assumption.
      * intros n Hn. apply Hkeep.
        destruct (decide (fst nf = n)) as [-> | Hne];
          [rewrite lookup_insert_eq; now eexists | now rewrite lookup_insert_ne].
      * intros Hr nf' [<- | Hin]; [ | now apply Hreg].
        apply Hkeep. rewrite lookup_insert_eq. now eexists.
      * cbn [map]. destruct Hcalls as [Hc | Hc]; rewrite Hc in Hrs.
        -- exists rs. split; [exact Hrs | now apply sublist_cons].
        -- exists (Anything_request g (snd nf) context :: rs). split.
           ++ now rewrite Hrs, <- app_assoc.
           ++ now apply sublist_skip.
Qed.

(** X11: when the trigger fires on an object that is not yet generated
    and returns, every pending name is registered, the functions
    registered before are still there, the object is generated and the
    pending declarations are kept as they were. *)
Theorem generate_all_registers_all (s s' : State LazyAnything) :
  _generated (self s) = false ->
  _generate_all s = (s', inr tt) ->
  _generated (self s') = true
  /\ _pending_functions (self s') = _pending_functions (self s)
  /\ (forall nf, In nf (_pending_functions (self s)) ->
                 is_Some (_registered_functions (self s') !! fst nf))
  /\ (forall n, is_Some (_registered_functions (self s) !! n) ->
                is_Some (_registered_functions (self s') !! n)).
Proof.
  intros Hg H. rewrite (generate_all_unfold s Hg) in H. unfold bind in H.
  destruct (for_each _ _ s) as [s1 [e | []]] eqn:Hloop; [discriminate | ].
  apply for_each_generate in Hloop. destruct Hloop as [_ Hp _ Hkeep Hreg _].
  injection H as <-. cbn [self _generated _pending_functions _registered_functions].
  repeat split; try assumption. now apply Hreg.
Qed.

(** X12: when the trigger raises, the object is still not generated and
    its pending declarations are kept, so that the trigger can fire again;
    a wrapped function called in that state raises the same exception and
    applies nothing. *)
Theorem generate_all_failure (s s' : State LazyAnything) (e : Exn) :
  _generate_all s = (s', inl e) ->
  _generated (self s') = false
  /\ _pending_functions (self s') = _pending_functions (self s)
  /\ forall func args kwargs,
      LazyAnything_wrapper func args kwargs s = (s', inl e).
Proof.
  intros H.
  destruct (_generated (self s)) eqn:Hg.
  { rewrite (generate_all_when_generated s Hg) in H. discriminate. }
  assert (Hw : forall func args kwargs,
             LazyAnything_wrapper func args kwargs s = (s', inl e)).
  { intros func args kwargs. unfold LazyAnything_wrapper.
    unfold bind at 1. unfold get. rewrite Hg. cbn [negb].
    unfold bind at 1. now rewrite H. }
  rewrite (generate_all_unfold s Hg) in H. unfold bind in H.
  destruct (for_each _ _ s) as [s1 [e1 | []]] eqn:Hloop; [ | discriminate].
  apply for_each_generate in Hloop. destruct Hloop as [_ Hp Hgen _ _ _].
  injection H as <- <-. rewrite Hgen, Hg. now repeat split.
Qed.

(** X13: the requests the trigger sends are requests for pending
    declarations, in the order of registration, at most one for each, and
    each of them carries the context built from all pending signatures. *)
Theorem generate_all_requests (s : State LazyAnything) :
  exists rs,
    calls (world (fst (_generate_all s))) = (calls (world s) ++ rs)%list
    /\ sublist rs (map (fun nf => Anything_request (generator (self s)) (snd nf)
                                                   (_build_context (self s)))
                       (_pending_functions (self s)))
    /\ List.length rs <= List.length (_pending_functions (self s)).
Proof.
  assert (Hlen : forall rs : list Request,
             sublist rs (map (fun nf => Anything_request (generator (self s)) (snd nf)
                                                         (_build_context (self s)))
                             (_pending_functions (self s))) ->
             List.length rs <= List.length (_pending_functions (self s))).
  { intros rs Hsub. apply sublist_length in Hsub. now rewrite length_map in Hsub. }
  destruct (_generated (self s)) eqn:Hg.
  - rewrite (generate_all_when_generated s Hg). exists []. cbn [fst].
    split; [now rewrite app_nil_r | ]. split; [apply sublist_nil_l | cbn; lia].
  - rewrite (generate_all_unfold s Hg). unfold bind.
    destruct (for_each _ _ s) as [s1 r] eqn:Hloop.
    apply for_each_generate in Hloop. destruct Hloop as [_ _ _ _ _ (rs & Hrs & Hsub)].
    exists rs. split; [ | split; [exact Hsub | now apply Hlen]].
    now destruct r as [e | []].
Qed.

(** X14: the first call of a wrapped function fires the trigger: when the
    object is not yet generated and the trigger returns, the call applies
    the implementation registered under the function's name, in the
    generated state. *)
Theorem wrapper_fires_trigger (s s1 : State LazyAnything) (func : Func)
        (args : list Value) (kwargs : ODict.t Value) (f : Value) :
  _generated (self s) = false ->
  _generate_all s = (s1, inr tt) ->
  _registered_functions (self s1) !! fn_name func = Some f ->
  LazyAnything_wrapper func args kwargs s = on_world (call_value f args kwargs) s1.
Proof.
  intros Hg Hall Hf. unfold LazyAnything_wrapper.
  unfold bind at 1. unfold get. rewrite Hg. cbn [negb].
  unfold bind at 1. rewrite Hall. unfold bind at 1. now rewrite Hf.
Qed.

End Trigger.

Lemma generate_all_registers_all_witness :
  _generated (self (fst (_generate_all (interp := Toy.interp Toy.three_replies)
                           Scenario.lazy_pending))) = true
  /\ _pending_functions (self (fst (_generate_all (interp := Toy.interp Toy.three_replies)
                                      Scenario.lazy_pending)))
     = _pending_functions (self Scenario.lazy_pending)
  /\ (forall nf, In nf (_pending_functions (self Scenario.lazy_pending)) ->
                 is_Some (_registered_functions
                            (self (fst (_generate_all (interp := Toy.interp Toy.three_replies)
                                          Scenario.lazy_pending))) !! fst nf))
  /\ (forall n, is_Some (_registered_functions (self Scenario.lazy_pending) !! n) ->
                is_Some (_registered_functions
                           (self (fst (_generate_all (interp := Toy.interp Toy.three_replies)
                                         Scenario.lazy_pending))) !! n)).
Proof.
  apply (generate_all_registers_all (interp := Toy.interp Toy.three_replies)
           Scenario.lazy_pending).
  - vm_compute. reflexivity.
  - apply pair_of_snd. vm_compute. reflexivity.
Defined.

Lemma generate_all_failure_witness :
  _generated (self (fst (_generate_all (interp := Toy.interp Scenario.bad_script)
                           Scenario.lazy_failing))) = false
  /\ _pending_functions (self (fst (_generate_all (interp := Toy.interp Scenario.bad_script)
                                      Scenario.lazy_failing)))
     = _pending_functions (self Scenario.lazy_failing)
  /\ forall func args kwargs,
      LazyAnything_wrapper (interp := Toy.interp Scenario.bad_script) func args kwargs
                           Scenario.lazy_failing
      = (fst (_generate_all (interp := Toy.interp Scenario.bad_script)
                Scenario.lazy_failing),
         inl (Failure "SyntaxError")).
Proof.
  apply (generate_all_failure (interp := Toy.interp Scenario.bad_script)
           Scenario.lazy_failing).
  apply pair_of_snd. vm_compute. reflexivity.
Defined.

Lemma wrapper_fires_trigger_witness :
  LazyAnything_wrapper (interp := Toy.interp Toy.three_replies) Toy.f_max
                       [Toy.VInt 1; Toy.VInt 2] [] Scenario.lazy_pending
  = on_world (call_value (interp := Toy.interp Toy.three_replies)
                (Toy.VFun Scenario.max_source) [Toy.VInt 1; Toy.VInt 2] [])
             (fst (_generate_all (interp := Toy.interp Toy.three_replies)
                     Scenario.lazy_pending)).
Proof.
  apply (wrapper_fires_trigger (interp := Toy.interp Toy.three_replies)
           Scenario.lazy_pending).
  - vm_compute. reflexivity.
  - apply pair_of_snd. vm_compute. reflexivity.
  - vm_compute. reflexivity.
Defined.

(** ** The context accumulator *)

Section Accumulator.

Context {interp : Interp}.

Lemma existsb_eqb_In (e : string) (l : list string) :
  existsb (String.eqb e) l = true <-> In e l.
Proof.
  induction l as [|x l IH]; cbn [existsb In]; [split; [discriminate | tauto] | ].
  rewrite orb_true_iff, IH, String.eqb_eq. split; intros [H | H]; auto.
Qed.

Lemma existsb_eqb_not_In (e : string) (l : list string) :
  existsb (String.eqb e) l = false -> ~ In e l.
Proof. intros H Hin. apply existsb_eqb_In in Hin. congruence. Qed.

Lemma NoDup_snoc_fresh (e : string) (l : list string) :
  List.NoDup l -> ~ In e l -> List.NoDup (l ++ [e]).
Proof.
  induction 1 as [|x l Hx Hl IH]; intros He; cbn [app].
  - constructor; [intros [] | constructor].
  - constructor.
    + rewrite in_app_iff. intros [Hin | [<- | []]]; [now apply Hx | ].
      apply He. now left.
    + apply IH. intros Hin. apply He. now right.
Qed.

Lemma extends_refl (ctx : list string) : extends ctx ctx.
Proof. now left. Qed.

Lemma extends_NoDup (ctx ctx' : list string) :
  extends ctx ctx' -> List.NoDup ctx -> List.NoDup ctx'.
Proof. intros [-> | (e & He & ->)] H; [exact H | now apply NoDup_snoc_fresh]. Qed.

Lemma extends_prefix (ctx ctx' : list string) :
  extends ctx ctx' -> exists tail, ctx' = (ctx ++ tail)%list /\ List.length tail <= 1.
Proof.
  intros [-> | (e & _ & ->)]; [exists [] | exists [e]]; split; cbn; try lia;
    [now rewrite app_nil_r | reflexivity].
Qed.

(** X15: [_add_to_context] records an entry once.  The entry is in the
    context afterwards; a context that held it already is unchanged, one
    that did not gets it at the end; a context without duplicates stays
    without; adding the same entry again changes nothing; the world is
    not touched. *)
Theorem add_to_context_once (s : State Everything) (item_type name description : string) :
  let entry := item_type ++ ": " ++ name ++ " - " ++ description in
  let s' := fst (_add_to_context item_type name description s) in
  world s' = world s
  /\ In entry (_context (self s'))
  /\ (In entry (_context (self s)) -> _context (self s') = _context (self s))
  /\ (~ In entry (_context (self s)) ->
      _context (self s') = (_context (self s) ++ [entry])%list)
  /\ (List.NoDup (_context (self s)) -> List.NoDup (_context (self s')))
  /\ _add_to_context item_type name description s' = (s', inr tt).
Proof.
  intros entry s'. subst s'. unfold _add_to_context. fold entry. run.
  destruct (existsb (String.eqb entry) (_context (self s))) eqn:E.
  - pose proof (proj1 (existsb_eqb_In _ _) E) as Hin.
    repeat split; try assumption; try reflexivity; try tauto.
    now rewrite E.
  - pose proof (existsb_eqb_not_In _ _ E) as Hout.
    cbn [_context].
    assert (Hnow : existsb (String.eqb entry) (_context (self s) ++ [entry]) = true).
    { apply existsb_eqb_In, in_app_iff. right. now left. }
    repeat split; try reflexivity; try tauto.
    + apply in_app_iff. right. now left.
    + intros Hn. now apply NoDup_snoc_fresh.
    + now rewrite Hnow.
Qed.

End Accumulator.

(** ** [Everything]: functions *)

Ltac use_tests :=
  repeat match goal with
         | H : existsb (String.eqb _) _ = false |- _ => apply existsb_eqb_not_In in H
         | H : existsb (String.eqb _) _ = true |- _ => apply existsb_eqb_In in H
         end.

Section Functions.

Context {interp : Interp}.

(** What [_generate_function] leaves of the object. *)
Lemma generate_function_frame (func_name : string) (args : list Value)
      (kwargs : ODict.t Value) (s : State Everything) :
  base (self (fst (_generate_function func_name args kwargs s))) = base (self s)
  /\ _functions (self (fst (_generate_function func_name args kwargs s)))
     = _functions (self s)
  /\ _constants (self (fst (_generate_function func_name args kwargs s)))
     = _constants (self s)
  /\ extends (_context (self s))
             (_context (self (fst (_generate_function func_name args kwargs s)))).
Proof.
  unfold _generate_function. run.
  split_run; cbn [fst self base _functions _constants _context]; use_tests;
    repeat split; solve [now left | right; eexists; split; [eassumption | reflexivity]].
Qed.


(** X17: a cache hit.  When the file of the shape exists and its execution
    binds the function name to a true value, [_generate_function] returns
    that value and records the shape in the context; no request is sent
    and no file written. *)
Theorem generate_function_cache_hit (func_name : string) (args : list Value)
        (kwargs : ODict.t Value) (s : State Everything) (code : string)
        (ns : Namespace) (f : Value) :
  files (world s) !! function_path (self s) func_name args kwargs = Some code ->
  py_exec code (env (world s)) = (ns, None) ->
  ns !! func_name = Some f ->
  py_bool f = true ->
  exists s',
    _generate_function func_name args kwargs s = (s', inr f)
    /\ world s' = mkWorld (files (world s)) (calls (world s)) ns
    /\ In (function_entry func_name args kwargs) (_context (self s')).
Proof.
  unfold function_path, function_entry. intros Hfile Hexec Hname Htrue.
  unfold _generate_function. run. rewrite Hfile. run. rewrite Hexec. run.
  rewrite Hname. change (default py_none (Some f)) with f. rewrite Htrue.
  eexists. split; [reflexivity | split; [reflexivity | ]].
  cbn [self]. destruct (existsb _ _) eqn:E; use_tests; [assumption | ].
  cbn [_context]. apply in_app_iff. right. now left.
Qed.

(** X18: when the generation of a new shape raises, [__getattr__]'s
    closure raises the same exception and stores nothing in [_functions],
    so that a later call of the shape generates again. *)
Theorem getattr_failure_stores_nothing (func_name : string) (args : list Value)
        (kwargs : ODict.t Value) (s s' : State Everything) (e : Exn) :
  _functions (self s) !! _get_cache_key func_name args kwargs = None ->
  _generate_function func_name args kwargs s = (s', inl e) ->
  Everything_getattr func_name args kwargs s = (s', inl e)
  /\ _functions (self s') = _functions (self s).
Proof.
  intros Hnew Hgen. split.
  - unfold Everything_getattr. unfold bind at 1. unfold get. rewrite Hnew.
    unfold bind at 1. unfold bind at 1. now rewrite Hgen.
  - destruct (generate_function_frame func_name args kwargs s) as (_ & Hf & _).
    now rewrite Hgen in Hf.
Qed.

End Functions.

(** ** [Everything]: constants *)

Section Constants.

Context {interp : Interp}.

Lemma generate_constant_frame (const_name : string) (s : State Everything) :
  env (world (fst (_generate_constant const_name s))) = env (world s)
  /\ base (self (fst (_generate_constant const_name s))) = base (self s)
  /\ _functions (self (fst (_generate_constant const_name s))) = _functions (self s)
  /\ _constants (self (fst (_generate_constant const_name s))) = _constants (self s)
  /\ extends (_context (self s)) (_context (self (fst (_generate_constant const_name s))))
  /\ (calls (world (fst (_generate_constant const_name s))) = calls (world s)
      \/ calls (world (fst (_generate_constant const_name s)))
         = (calls (world s) ++ [constant_request (self s) const_name])%list)
  /\ (files (world (fst (_generate_constant const_name s))) = files (world s)
      \/ exists code,
          files (world (fst (_generate_constant const_name s)))
          = <[constant_path (self s) const_name := code]> (files (world s))).
Proof.
  unfold constant_request, constant_path, _generate_constant. run.
  split_run;
    cbn [fst world self env files calls base _functions _constants _context
         set_files set_calls set_env];
    use_tests; repeat split;
    solve [now left | right; now eexists
           | right; eexists; split; [eassumption | reflexivity]].
Qed.

(** X19: [_generate_constant] executes the source text of a constant in a
    namespace of its own: whatever the outcome, the execution namespace of
    the generator is as before, and so are [_functions] and [_constants];
    at most one request is sent, and no file but the one of the constant
    is written. *)
Theorem generate_constant_footprint (const_name : string) (s : State Everything) :
  env (world (fst (_generate_constant const_name s))) = env (world s)
  /\ _functions (self (fst (_generate_constant const_name s))) = _functions (self s)
  /\ _constants (self (fst (_generate_constant const_name s))) = _constants (self s)
  /\ (calls (world (fst (_generate_constant const_name s))) = calls (world s)
      \/ calls (world (fst (_generate_constant const_name s)))
         = (calls (world s) ++ [constant_request (self s) const_name])%list)
  /\ forall p : Path,
      p <> constant_path (self s) const_name ->
      files (world (fst (_generate_constant const_name s))) !! p = files (world s) !! p.
Proof.
  destruct (generate_constant_frame const_name s) as (He & _ & Hf & Hc & _ & Hr & Hw).
  repeat split; try assumption. intros p Hp.
  destruct Hw as [-> | [code ->]]; [reflexivity | now rewrite lookup_insert_ne].
Qed.

(** X20: the source text of a constant is stored before it is executed.
    When a new constant is requested, the endpoint answers and the
    execution of the answer raises, [__getitem__] raises that exception
    after one request, the answer is in the cache store, and asking for
    the constant again raises the same exception without any request. *)
Theorem constant_failure_is_cached (const_name content : string) (s : State Everything)
        (ns : Namespace) (e : Exn) :
  _constants (self s) !! const_name = None ->
  files (world s) !! constant_path (self s) const_name = None ->
  endpoint (calls (world s)) (constant_request (self s) const_name) = inr content ->
  py_exec (_clean_code content) ∅ = (ns, Some e) ->
  exists s',
    Everything_getitem const_name s = (s', inl e)
    /\ files (world s') !! constant_path (self s) const_name = Some (_clean_code content)
    /\ calls (world s') = (calls (world s) ++ [constant_request (self s) const_name])%list
    /\ Everything_getitem const_name s' = (s', inl e).
Proof.
  unfold constant_path, constant_request. intros Hnew Hfile Hreply Hexec.
  eexists. split; [ | split; [ | split]].
  - unfold Everything_getitem. unfold bind at 1. unfold get. rewrite Hnew.
    unfold _generate_constant. run. rewrite Hfile. run. rewrite Hreply. run.
    rewrite Hexec. reflexivity.
  - cbn [world files]. apply lookup_insert_eq.
  - reflexivity.
  - unfold Everything_getitem. unfold bind at 1. unfold get. cbn [self]. rewrite Hnew.
    unfold _generate_constant. run. rewrite lookup_insert_eq. run.
    rewrite Hexec. reflexivity.
Qed.

Lemma generate_constant_source (const_name : string) (s s1 : State Everything) (v : Value) :
  _generate_constant const_name s = (s1, inr v) ->
  exists code ns,
    files (world s1) !! constant_path (self s) const_name = Some code
    /\ py_exec code ∅ = (ns, None)
    /\ v = constant_lookup ns const_name.
Proof.
  unfold constant_path, _generate_constant. run.
  destruct (files (world s) !! _) as [code | ] eqn:Hfile; run.
  - destruct (py_exec code ∅) as [ns [e | ]] eqn:Hexec; intros H; [discriminate | ].
    injection H as <- <-. exists code, ns. run. now repeat split.
  - destruct (endpoint _ _) as [e | content]; [discriminate | ].
    destruct (py_exec (_clean_code content) ∅) as [ns [e | ]] eqn:Hexec; intros H;
      [discriminate | ].
    injection H as <- <-. exists (_clean_code content), ns. run.
    rewrite lookup_insert_eq. now repeat split.
Qed.

(** X21: a constant that was returned once is read back from the cache
    store: in any state with the same configuration and the same cache
    files, for instance a new instance on the same directory,
    [_generate_constant] returns the same value without a request and
    without writing. *)
Theorem constant_reload (const_name : string) (s s1 s2 : State Everything) (v : Value) :
  _generate_constant const_name s = (s1, inr v) ->
  base (self s2) = base (self s) ->
  files (world s2) = files (world s1) ->
  exists s3,
    _generate_constant const_name s2 = (s3, inr v)
    /\ calls (world s3) = calls (world s2)
    /\ files (world s3) = files (world s2).
Proof.
  intros H Hbase Hfiles.
  destruct (generate_constant_source const_name s s1 v H) as (code & ns & Hfile & Hexec & ->).
  unfold constant_path in Hfile. rewrite <- Hbase, <- Hfiles in Hfile.
  unfold _generate_constant. run. rewrite Hfile. run. rewrite Hexec.
  eexists. repeat split.
Qed.

(** X22: the context only grows between two clearings.  A call through
    [__getattr__]'s closure or an access through [__getitem__] leaves the
    context as it was or with one new entry at its end, and a context
    without duplicates stays without. *)
Theorem context_only_grows (s : State Everything) :
  (forall func_name args kwargs,
      extends (_context (self s))
              (_context (self (fst (Everything_getattr func_name args kwargs s))))
      /\ (List.NoDup (_context (self s)) ->
          List.NoDup (_context (self (fst (Everything_getattr func_name args kwargs s))))))
  /\ (forall const_name,
         extends (_context (self s))
                 (_context (self (fst (Everything_getitem const_name s))))
         /\ (List.NoDup (_context (self s)) ->
             List.NoDup (_context (self (fst (Everything_getitem const_name s)))))).
Proof.
  split.
  - intros func_name args kwargs.
    assert (H : extends (_context (self s))
                  (_context (self (fst (Everything_getattr func_name args kwargs s))))).
    { destruct (generate_function_frame func_name args kwargs s) as (_ & _ & _ & Hx).
      unfold Everything_getattr. run.
      destruct (_functions (self s) !! _) as [f | ] eqn:E; run.
      - rewrite E. run. destruct_call. apply extends_refl.
      - destruct (_generate_function func_name args kwargs s) as [s2 [e | f]]; run;
          [exact Hx | ].
        rewrite lookup_insert_eq. destruct_call. exact Hx. }
    split; [exact H | now apply extends_NoDup].
  - intros const_name.
    assert (H : extends (_context (self s))
                  (_context (self (fst (Everything_getitem const_name s))))).
    { destruct (generate_constant_frame const_name s) as (_ & _ & _ & _ & Hx & _).
      unfold Everything_getitem. run.
      destruct (_constants (self s) !! const_name) as [c | ] eqn:E; run.
      - rewrite E. apply extends_refl.
      - destruct (_generate_constant const_name s) as [s2 [e | c]]; run; [exact Hx | ].
        rewrite lookup_insert_eq. exact Hx. }
    split; [exact H | now apply extends_NoDup].
Qed.

End Constants.


Lemma generate_function_cache_hit_witness :
  exists s',
    _generate_function (interp := Toy.interp Scenario2.add_script)
      "add" [Toy.VInt 5; Toy.VInt 6] [] Scenario2.new_instance
    = (s', inr (Toy.VFun Scenario2.add_source))
    /\ world s'
       = mkWorld (interp := Toy.interp Scenario2.add_script)
           (files (world Scenario2.new_instance)) (calls (world Scenario2.new_instance))
           (fst (Toy.exec Scenario2.add_source (env (world Scenario2.new_instance))))
    /\ In (function_entry (interp := Toy.interp Scenario2.add_script)
             "add" [Toy.VInt 5; Toy.VInt 6] [])
          (_context (self s')).
Proof.
  apply (generate_function_cache_hit (interp := Toy.interp Scenario2.add_script)
           "add" [Toy.VInt 5; Toy.VInt 6] [] Scenario2.new_instance Scenario2.add_source).
  - vm_compute. reflexivity.
  - apply pair_of_snd. vm_compute. reflexivity.
  - vm_compute. reflexivity.
  - reflexivity.
Defined.

Lemma getattr_failure_stores_nothing_witness :
  Everything_getattr (interp := Toy.interp Scenario.bad_script) "area" [Toy.VInt 2] []
    (Toy.everything0 Scenario.bad_script)
  = (fst (_generate_function (interp := Toy.interp Scenario.bad_script)
            "area" [Toy.VInt 2] [] (Toy.everything0 Scenario.bad_script)),
     inl (Failure "SyntaxError"))
  /\ _functions (self (fst (_generate_function (interp := Toy.interp Scenario.bad_script)
                              "area" [Toy.VInt 2] []
                              (Toy.everything0 Scenario.bad_script))))
     = _functions (self (Toy.everything0 Scenario.bad_script)).
Proof.
  apply (getattr_failure_stores_nothing (interp := Toy.interp Scenario.bad_script)
           "area" [Toy.VInt 2] [] (Toy.everything0 Scenario.bad_script)).
  - vm_compute. reflexivity.
  - apply pair_of_snd. vm_compute. reflexivity.
Defined.

Lemma constant_failure_is_cached_witness :
  exists s',
    Everything_getitem (interp := Toy.interp Scenario2.broken_script) "pi"
      (Toy.everything0 Scenario2.broken_script)
    = (s', inl (Failure "SyntaxError"))
    /\ files (world s')
       !! constant_path (interp := Toy.interp Scenario2.broken_script)
            (self (Toy.everything0 Scenario2.broken_script)) "pi"
       = Some (_clean_code "PI =")
    /\ calls (world s')
       = (calls (world (Toy.everything0 Scenario2.broken_script))
            ++ [constant_request (interp := Toy.interp Scenario2.broken_script)
                  (self (Toy.everything0 Scenario2.broken_script)) "pi"])%list
    /\ Everything_getitem (interp := Toy.interp Scenario2.broken_script) "pi" s'
       = (s', inl (Failure "SyntaxError")).
Proof.
  apply (constant_failure_is_cached (interp := Toy.interp Scenario2.broken_script)
           "pi" "PI =" (Toy.everything0 Scenario2.broken_script)
           (fst (Toy.exec (_clean_code "PI =") ∅))).
  - vm_compute. reflexivity.
  - vm_compute. reflexivity.
  - vm_compute. reflexivity.
  - apply pair_of_snd. vm_compute. reflexivity.
Defined.

Lemma constant_reload_witness :
  exists s3,
    _generate_constant (interp := Toy.interp Scenario2.pi_script) "pi" Scenario2.pi_reader
    = (s3, inr (Toy.VStr "3"))
    /\ calls (world s3) = calls (world Scenario2.pi_reader)
    /\ files (world s3) = files (world Scenario2.pi_reader).
Proof.
  apply (constant_reload (interp := Toy.interp Scenario2.pi_script)
           "pi" (Toy.everything0 Scenario2.pi_script) Scenario2.after_pi).
  - apply pair_of_snd. vm_compute. reflexivity.
  - reflexivity.
  - reflexivity.
Defined.


(** ** Generation on a cache miss, and the constructors *)

Section Generation.

Context {interp : Interp}.

(** X23: generation on a cache miss.  When no file exists for the cache
    path and [Anything.__call__] returns, the endpoint has answered the
    request for the function, the answer without its fence is what the
    file of the cache path now holds, the request is the only one added
    to the log, and the value returned is the binding of the function name
    in the namespace. *)
Theorem Anything_call_generates (self : BaseGenerator) (func : Func) (context : string)
        (w w' : World) (impl : Value) :
  files w !! Anything_path self func context = None ->
  Anything_call self func context w = (w', inr impl) ->
  exists content,
    endpoint (calls w) (Anything_request self func context) = inr content
    /\ files w' = <[Anything_path self func context := _clean_code content]> (files w)
    /\ calls w' = (calls w ++ [Anything_request self func context])%list
    /\ env w' !! fn_name func = Some impl.
Proof.
  unfold Anything_path, Anything_request, Anything_prompt. intros Hmiss.
  unfold Anything_call. run. rewrite Hmiss. run. rewrite py_bool_none.
  split_run; intros H; try discriminate H; injection H as <- <-;
    eexists; cbn [files calls env set_files set_calls set_env];
    repeat split; try reflexivity; eassumption.
Qed.

(** X24: what one call of [_generate_function] may touch: at most one
    request is sent, the one for the shape with the context so far, no
    file but the one of the shape is written, and [_functions] and
    [_constants] are left as they are. *)
Theorem generate_function_footprint (func_name : string) (args : list Value)
        (kwargs : ODict.t Value) (s : State Everything) :
  (calls (world (fst (_generate_function func_name args kwargs s))) = calls (world s)
   \/ calls (world (fst (_generate_function func_name args kwargs s)))
      = (calls (world s) ++ [function_request (self s) func_name args kwargs])%list)
  /\ (forall p : Path,
         p <> function_path (self s) func_name args kwargs ->
         files (world (fst (_generate_function func_name args kwargs s))) !! p
         = files (world s) !! p)
  /\ _functions (self (fst (_generate_function func_name args kwargs s)))
     = _functions (self s)
  /\ _constants (self (fst (_generate_function func_name args kwargs s)))
     = _constants (self s).
Proof.
  destruct (generate_function_frame func_name args kwargs s) as (_ & Hf & Hc & _).
  split; [ | split; [ | split; assumption]].
  - unfold function_request, _generate_function. run.
    split_run; cbn [fst world calls set_files set_calls set_env];
      solve [now left | now right].
  - intros p Hp. revert Hp. unfold function_path, _generate_function. run.
    split_run; cbn [fst world files set_files set_calls set_env]; intros Hp;
      try reflexivity; now rewrite lookup_insert_ne.
Qed.




End Generation.

Lemma Anything_call_generates_witness :
  exists content,
    endpoint (Interp := Toy.interp Scenario.area_script)
             (calls (Toy.empty_world Scenario.area_script))
             (Anything_request (interp := Toy.interp Scenario.area_script)
                Toy.base0 Scenario.f_area "")
    = inr content
    /\ files Scenario.world_after_area
       = <[Anything_path (interp := Toy.interp Scenario.area_script)
             Toy.base0 Scenario.f_area "" := _clean_code content]>
           (files (Toy.empty_world Scenario.area_script))
    /\ calls Scenario.world_after_area
       = (calls (Toy.empty_world Scenario.area_script)
            ++ [Anything_request (interp := Toy.interp Scenario.area_script)
                  Toy.base0 Scenario.f_area ""])%list
    /\ env Scenario.world_after_area !! fn_name Scenario.f_area
       = Some (Toy.VFun Scenario.area_source).
Proof.
  apply (Anything_call_generates (interp := Toy.interp Scenario.area_script)
           Toy.base0 Scenario.f_area "" (Toy.empty_world Scenario.area_script)
           Scenario.world_after_area (Toy.VFun Scenario.area_source)).
  - vm_compute. reflexivity.
  - apply pair_of_snd. vm_compute. reflexivity.
Defined.


